(** * The CBF to EDF batch conversion tutorial, as a state-passing program

    Source: [doc/source/tutorials/convert_CBF.ipynb].  The notebook has five
    code cells, run top to bottom in one Python session:

    - cell 1: [files = glob.glob("*.cbf")], [files.sort()], print the count;
    - cell 2: [dest_format = "edf"], [dest_dir = "edf_format"];
    - cell 3: [if not os.path.exists(dest_dir): os.makedirs(dest_dir)];
    - cell 4: under [%%time], for each [onefile] of [files] compute
      [dst_name] and run [fabio.open(onefile).convert(dest_format).save(dst_name)];
    - cell 5: print [len(files)/5.64] with one decimal.

    The session is a record of the Python variables, the file system, the
    printed lines and the calls made so far.  A cell is a computation in a
    state monad that can raise: the state reached so far survives an
    exception, as files written before a failure stay on disk.

    What the notebook only calls is modelled on the side: the functions of
    [os.path], [glob] and [fnmatch] on POSIX, a file system without symbolic
    links or permissions whose keys are normalised relative paths, file
    names as the bytes on disk, decoded as Python does where it compares
    them, and the image library as an interface of three partial
    functions. *)

From Stdlib Require Import PrimFloat FloatOps SpecFloat ZArith NArith Uint63.
From Stdlib Require Import Ascii String.
From Stdlib Require Import DecimalString.
From stdpp Require Import gmap strings list sorting.

(** ** Python strings *)

Module Str.

(** [s.startswith(p)] *)
Fixpoint startswith (p s : string) : bool :=
  match p with
  | EmptyString => true
  | String a p' =>
      match s with
      | EmptyString => false
      | String b s' => Ascii.eqb a b && startswith p' s'
      end
  end.

(** [s.endswith(p)] *)
Fixpoint endswith (p s : string) : bool :=
  String.eqb s p ||
  match s with
  | EmptyString => false
  | String _ s' => endswith p s'
  end.

(** [c in s] for a character [c] *)
Fixpoint contains (c : ascii) (s : string) : bool :=
  match s with
  | EmptyString => false
  | String a s' => Ascii.eqb a c || contains c s'
  end.

(** every character of [s] is [c] *)
Fixpoint all_char (c : ascii) (s : string) : bool :=
  match s with
  | EmptyString => true
  | String a s' => Ascii.eqb a c && all_char c s'
  end.

(** [rsplit c s] cuts [s] at its last [c]: with [i = s.rfind(c)] it is the
    pair of slices [(s[:i], s[i+1:])], and [None] when [rfind] gives [-1]. *)
Fixpoint rsplit (c : ascii) (s : string) : option (string * string) :=
  match s with
  | EmptyString => None
  | String a s' =>
      match rsplit c s' with
      | Some (h, t) => Some (String a h, t)
      | None => if Ascii.eqb a c then Some (EmptyString, s') else None
      end
  end.

(** [str(n)] for a non-negative integer *)
Definition of_N (n : N) : string := NilEmpty.string_of_uint (N.to_uint n).
Definition of_nat (n : nat) : string := of_N (N.of_nat n).

End Str.

(** ** File names as Python strings

    A file name is a string of bytes on disk; [os.listdir] hands it to
    Python decoded, and Python compares the decoded strings.  The model
    keeps names as bytes, which is what matching, splitting and joining
    see (an ASCII byte always decodes to itself), and decodes them where
    the order matters. *)

Module Unicode.

(** a continuation byte, [80..BF] *)
Definition cont (b : N) : bool := (0x80 <=? b)%N && (b <=? 0xBF)%N.

(** the well-formed sequences of two, three and four bytes *)
Definition ok2 (b0 b1 : N) : bool :=
  (0xC2 <=? b0)%N && (b0 <=? 0xDF)%N && cont b1.

Definition ok3 (b0 b1 b2 : N) : bool :=
  ((b0 =? 0xE0)%N && (0xA0 <=? b1)%N && (b1 <=? 0xBF)%N
   || (0xE1 <=? b0)%N && (b0 <=? 0xEC)%N && cont b1
   || (b0 =? 0xED)%N && (0x80 <=? b1)%N && (b1 <=? 0x9F)%N
   || (0xEE <=? b0)%N && (b0 <=? 0xEF)%N && cont b1)
  && cont b2.

Definition ok4 (b0 b1 b2 b3 : N) : bool :=
  ((b0 =? 0xF0)%N && (0x90 <=? b1)%N && (b1 <=? 0xBF)%N
   || (0xF1 <=? b0)%N && (b0 <=? 0xF3)%N && cont b1
   || (b0 =? 0xF4)%N && (0x80 <=? b1)%N && (b1 <=? 0x8F)%N)
  && cont b2 && cont b3.

Definition cp2 (b0 b1 : N) : N := ((b0 - 0xC0) * 64 + (b1 - 0x80))%N.
Definition cp3 (b0 b1 b2 : N) : N :=
  ((b0 - 0xE0) * 4096 + (b1 - 0x80) * 64 + (b2 - 0x80))%N.
Definition cp4 (b0 b1 b2 b3 : N) : N :=
  ((b0 - 0xF0) * 262144 + (b1 - 0x80) * 4096 + (b2 - 0x80) * 64 + (b3 - 0x80))%N.

(** the lone surrogate that stands for a byte that does not decode *)
Definition escape (b : N) : N := (0xDC00 + b)%N.

(** [os.fsdecode] where the file system encoding is UTF-8: a well-formed
    sequence gives its code point, and a byte that starts none is escaped
    on its own (the error handler [surrogateescape]). *)
Fixpoint fsdecode (s : string) : list N :=
  match s with
  | EmptyString => []
  | String a0 s1 =>
      let b0 := N_of_ascii a0 in
      if (b0 <? 0x80)%N then b0 :: fsdecode s1
      else
        match s1 with
        | String a1 s2 =>
            let b1 := N_of_ascii a1 in
            if ok2 b0 b1 then cp2 b0 b1 :: fsdecode s2
            else
              match s2 with
              | String a2 s3 =>
                  let b2 := N_of_ascii a2 in
                  if ok3 b0 b1 b2 then cp3 b0 b1 b2 :: fsdecode s3
                  else
                    match s3 with
                    | String a3 s4 =>
                        let b3 := N_of_ascii a3 in
                        if ok4 b0 b1 b2 b3 then cp4 b0 b1 b2 b3 :: fsdecode s4
                        else escape b0 :: fsdecode s1
                    | EmptyString => escape b0 :: fsdecode s1
                    end
              | EmptyString => escape b0 :: fsdecode s1
              end
        | EmptyString => escape b0 :: fsdecode s1
        end
  end.

(** [<=] on Python strings: code point by code point, a proper prefix
    first *)
Fixpoint lex_leb (k1 k2 : list N) : bool :=
  match k1, k2 with
  | [], _ => true
  | _ :: _, [] => false
  | x :: k1', y :: k2' =>
      match (x ?= y)%N with
      | Lt => true
      | Gt => false
      | Eq => lex_leb k1' k2'
      end
  end.

(** the order of two names as [files.sort()] sees them *)
Definition str_le (s t : string) : Prop :=
  lex_leb (fsdecode s) (fsdecode t) = true.

#[global] Instance str_le_dec : RelDecision str_le :=
  λ s t, decide (lex_leb (fsdecode s) (fsdecode t) = true).

End Unicode.

(** ** [fnmatch], [glob] and [os.path] on POSIX *)

Module Fnmatch.

(** [fnmatch.fnmatchcase(name, pat)] for patterns made of [*], [?] and
    literal characters (no bracket expression). *)
Fixpoint fnmatchcase_rev (pat name : string) : bool :=
  match pat with
  | EmptyString => String.eqb name EmptyString
  | String "*" pat' =>
      (fix star (s : string) : bool :=
         fnmatchcase_rev pat' s ||
         match s with
         | EmptyString => false
         | String _ s' => star s'
         end) name
  | String "?" pat' =>
      match name with
      | EmptyString => false
      | String _ s' => fnmatchcase_rev pat' s'
      end
  | String c pat' =>
      match name with
      | EmptyString => false
      | String d s' => Ascii.eqb c d && fnmatchcase_rev pat' s'
      end
  end.

Definition fnmatchcase (name pat : string) : bool := fnmatchcase_rev pat name.

(** [fnmatch.filter(names, pat)]; [os.path.normcase] is the identity on POSIX. *)
Definition filter (names : list string) (pat : string) : list string :=
  List.filter (λ n, fnmatchcase n pat) names.

End Fnmatch.

Module Path.

Definition sep : ascii := "/".
Definition extsep : ascii := ".".

(** [posixpath.splitext]: the extension starts at the last dot of the last
    component, unless only dots come before it in that component. *)
Definition splitext (p : string) : string * string :=
  let '(dir, name) :=
    match Str.rsplit sep p with
    | Some (h, t) => (h +:+ String sep EmptyString, t)
    | None => (EmptyString, p)
    end in
  match Str.rsplit extsep name with
  | Some (r, e) =>
      if Str.all_char extsep r then (p, EmptyString)
      else (dir +:+ r, String extsep e)
  | None => (p, EmptyString)
  end.

(** [posixpath.join(a, b)] *)
Definition join (a b : string) : string :=
  if Str.startswith "/" b then b
  else if String.eqb a EmptyString || Str.endswith "/" a then a +:+ b
  else a +:+ "/" +:+ b.

(** [posixpath.basename(p)] *)
Definition basename (p : string) : string :=
  match Str.rsplit sep p with
  | Some (_, t) => t
  | None => p
  end.

(** the directory a normalised relative path lies in; [None] is the
    current directory *)
Definition parent (p : string) : option string :=
  match Str.rsplit sep p with
  | Some (h, _) => Some h
  | None => None
  end.

(** the proper ancestors of a normalised relative path, outermost first:
    [ancestors "a/b/c" = ["a"; "a/b"]] *)
Fixpoint ancestors_from (seen rest : string) : list string :=
  match rest with
  | EmptyString => []
  | String c rest' =>
      if Ascii.eqb c sep then seen :: ancestors_from (seen +:+ String c EmptyString) rest'
      else ancestors_from (seen +:+ String c EmptyString) rest'
  end.

Definition ancestors (p : string) : list string := ancestors_from EmptyString p.

End Path.

(** ** Numbers as Python prints them *)

Module Fmt.

(** [float(n)] for the length of a list (below [2^63]) *)
Definition float_of_nat (n : nat) : float :=
  PrimFloat.of_uint63 (Uint63.of_Z (Z.of_nat n)).

(** [num/den] rounded to the nearest integer, ties to even
    ([0 <= num], [0 < den]) *)
Definition round_half_even (num den : Z) : Z :=
  let q := (num / den)%Z in
  let r := (num mod den)%Z in
  if (2 * r <? den)%Z then q
  else if (den <? 2 * r)%Z then (q + 1)%Z
  else if Z.even q then q else (q + 1)%Z.

Definition sign (s : bool) : string := if s then "-" else "".

(** ["%.1f" % x]: the binary value of [x], correctly rounded to one
    decimal *)
Definition format_1f (x : float) : string :=
  match Prim2SF x with
  | S754_zero s => sign s +:+ "0.0"
  | S754_infinity s => sign s +:+ "inf"
  | S754_nan => "nan"
  | S754_finite s m e =>
      let tenths :=
        if (0 <=? e)%Z then (10 * Z.pos m * 2 ^ e)%Z
        else round_half_even (10 * Z.pos m) (2 ^ (- e)) in
      sign s +:+ Str.of_N (Z.to_N (tenths / 10)) +:+ "." +:+
      Str.of_N (Z.to_N (tenths mod 10))
  end.

End Fmt.

(** ** The file system *)

Inductive node : Type :=
| File (data : list Byte.byte)
| Dir.

Inductive exn : Type :=
| FileExistsError
| FileNotFoundError
| NotADirectoryError
| IsADirectoryError
| FabioError.

Module Fs.

(** Keys are normalised relative paths: ["a.cbf"], ["edf_format"],
    ["edf_format/a.edf"].  The current directory itself has no key. *)
Abbreviation t := (gmap string node).

(** [os.path.exists(p)] *)
Definition exists_ (fs : t) (p : string) : bool :=
  bool_decide (is_Some (fs !! p)).

(** [os.path.isdir(p)] *)
Definition isdir (fs : t) (p : string) : bool :=
  match fs !! p with
  | Some Dir => true
  | _ => false
  end.

(** [os.listdir(".")], in the order the system gives *)
Definition listdir (fs : t) : list string :=
  List.filter (λ n, negb (Str.contains Path.sep n)) (elements (dom fs)).

(** can an entry be created or replaced at [p]? *)
Definition check_parent (fs : t) (p : string) : option exn :=
  match Path.parent p with
  | None => None
  | Some d =>
      match fs !! d with
      | Some Dir => None
      | Some (File _) => Some NotADirectoryError
      | None => Some FileNotFoundError
      end
  end.

(** reading the bytes of [p] *)
Definition read (fs : t) (p : string) : exn + list Byte.byte :=
  match fs !! p with
  | Some (File d) => inr d
  | Some Dir => inl IsADirectoryError
  | None => inl FileNotFoundError
  end.

(** [open(p, "wb").write(data)]: creates the file or replaces its content *)
Definition write (fs : t) (p : string) (data : list Byte.byte) : exn + t :=
  match fs !! p with
  | Some Dir => inl IsADirectoryError
  | _ =>
      match check_parent fs p with
      | Some e => inl e
      | None => inr (<[p := File data]> fs)
      end
  end.

(** [os.mkdir(p)] *)
Definition mkdir (fs : t) (p : string) : exn + t :=
  match fs !! p with
  | Some _ => inl FileExistsError
  | None =>
      match check_parent fs p with
      | Some e => inl e
      | None => inr (<[p := Dir]> fs)
      end
  end.

(** [os.makedirs(p)]: the missing ancestors are made first, then [p]
    itself, which must not exist *)
Fixpoint makedirs_in (fs : t) (missing : list string) (p : string) : exn + t :=
  match missing with
  | [] => mkdir fs p
  | d :: rest =>
      if exists_ fs d then makedirs_in fs rest p
      else
        match mkdir fs d with
        | inl e => inl e
        | inr fs' => makedirs_in fs' rest p
        end
  end.

Definition makedirs (fs : t) (p : string) : exn + t :=
  makedirs_in fs (Path.ancestors p) p.

End Fs.

Module Glob.

(** [glob._ishidden] *)
Definition ishidden (name : string) : bool := Str.startswith "." name.

(** [glob.glob1(os.curdir, pattern)]: the entries of the current
    directory that match, hidden ones left out unless the pattern is
    hidden itself *)
Definition glob1 (names : list string) (pattern : string) : list string :=
  let names :=
    if ishidden pattern then names
    else List.filter (λ x, negb (ishidden x)) names in
  Fnmatch.filter names pattern.

End Glob.

(** ** The image library, as the notebook uses it *)

(** [fabio.open(path)] reads the file and decodes it, [img.convert(fmt)]
    gives an image of the other format, [img.save(path)] encodes and writes.
    Each can fail; what they compute stays abstract. *)
Class Codec : Type := {
  image : Type;
  decode : string → list Byte.byte → option image;
  convert : image → string → option image;
  encode : image → string → option (list Byte.byte);
}.

(** ** The session and its monad *)

Inductive event : Type :=
| EvGlob (pattern : string)
| EvExists (path : string)
| EvMakedirs (path : string)
| EvOpen (path : string)
| EvConvert (fmt : string)
| EvSave (path : string)
| EvWallTime (seconds : float).

Record session : Type := Session {
  files : list string;        (* Python variable [files] *)
  dest_format : string;       (* Python variable [dest_format] *)
  dest_dir : string;          (* Python variable [dest_dir] *)
  fs : gmap string node;      (* the disk *)
  stdout : list string;       (* the lines printed, oldest first *)
  trace : list event;         (* the calls made, oldest first *)
}.

(** How a computation ends: with a value, with a Python exception, or
    with the fuel of a loop used up.  No run of the notebook ends the last
    way (lemma [run_shape]). *)
Inductive outcome (A : Type) : Type :=
| Ret (a : A)
| Raise (e : exn)
| Diverge.
Arguments Ret {A} a.
Arguments Raise {A} e.
Arguments Diverge {A}.

Definition M (A : Type) : Type := session → outcome A * session.

#[export] Instance M_ret : MRet M := λ A a s, (Ret a, s).

#[export] Instance M_bind : MBind M := λ A B k m s,
  match m s with
  | (Ret a, s') => k a s'
  | (Raise e, s') => (Raise e, s')
  | (Diverge, s') => (Diverge, s')
  end.

Definition raise {A} (e : exn) : M A := λ s, (Raise e, s).
Definition diverge {A} : M A := λ s, (Diverge, s).
Definition get : M session := λ s, (Ret s, s).
Definition modify (f : session → session) : M unit := λ s, (Ret (), f s).

Definition set_files (l : list string) (s : session) : session :=
  Session l (dest_format s) (dest_dir s) (fs s) (stdout s) (trace s).
Definition set_dest_format (f : string) (s : session) : session :=
  Session (files s) f (dest_dir s) (fs s) (stdout s) (trace s).
Definition set_dest_dir (d : string) (s : session) : session :=
  Session (files s) (dest_format s) d (fs s) (stdout s) (trace s).
Definition set_fs (m : gmap string node) (s : session) : session :=
  Session (files s) (dest_format s) (dest_dir s) m (stdout s) (trace s).
Definition add_line (l : string) (s : session) : session :=
  Session (files s) (dest_format s) (dest_dir s) (fs s) (stdout s ++ [l]) (trace s).
Definition add_event (e : event) (s : session) : session :=
  Session (files s) (dest_format s) (dest_dir s) (fs s) (stdout s) (trace s ++ [e]).

Definition print (l : string) : M unit := modify (add_line l).
Definition log (e : event) : M unit := modify (add_event e).

(** an operation of the file system that raises or replaces the disk *)
Definition on_fs (op : gmap string node → exn + gmap string node) : M unit :=
  s ← get;
  match op (fs s) with
  | inl e => raise e
  | inr m => modify (set_fs m)
  end.

(** a call of the image library that raises when the library gives nothing *)
Definition fabio {A} (r : option A) : M A :=
  match r with
  | Some a => mret a
  | None => raise FabioError
  end.

(** ** The calls of the notebook *)

(** [glob.glob(pattern)] for a pattern without a directory part *)
Definition glob_glob (pattern : string) : M (list string) :=
  log (EvGlob pattern);;
  s ← get;
  mret (Glob.glob1 (Fs.listdir (fs s)) pattern).

(** [files.sort()]: in place, in the order of Python strings, that is by
    the code points of the decoded names *)
Definition files_sort : M unit :=
  modify (λ s, set_files (merge_sort Unicode.str_le (files s)) s).

Definition os_path_exists (p : string) : M bool :=
  log (EvExists p);;
  s ← get;
  mret (Fs.exists_ (fs s) p).

Definition os_makedirs (p : string) : M unit :=
  log (EvMakedirs p);;
  on_fs (λ m, Fs.makedirs m p).

Section Notebook.
Context `{Codec}.

Definition fabio_open (path : string) : M image :=
  log (EvOpen path);;
  s ← get;
  match Fs.read (fs s) path with
  | inl e => raise e
  | inr bytes => fabio (decode path bytes)
  end.

Definition image_convert (img : image) (fmt : string) : M image :=
  log (EvConvert fmt);;
  fabio (convert img fmt).

Definition image_save (img : image) (path : string) : M unit :=
  log (EvSave path);;
  bytes ← fabio (encode img path);
  on_fs (λ m, Fs.write m path bytes).

(** *** Cell 1 *)
Definition cell1 : M unit :=
  names ← glob_glob "*.cbf";
  modify (set_files names);;
  files_sort;;
  s ← get;
  print ("Number of files: " +:+ Str.of_nat (length (files s))).

(** *** Cell 2 *)
Definition cell2 : M unit :=
  modify (set_dest_format "edf");;
  modify (set_dest_dir "edf_format").

(** *** Cell 3 *)
Definition cell3 : M unit :=
  s ← get;
  b ← os_path_exists (dest_dir s);
  if negb b then os_makedirs (dest_dir s) else mret ().

(** *** Cell 4 *)

(** the path written for [onefile] *)
Definition dst_name_of (d fmt onefile : string) : string :=
  Path.join d ((Path.splitext onefile).1 +:+ "." +:+ fmt).

(** the body of the loop *)
Definition convert_one (onefile : string) : M unit :=
  s ← get;
  let dst_name := dst_name_of (dest_dir s) (dest_format s) onefile in
  img ← fabio_open onefile;
  img' ← image_convert img (dest_format s);
  image_save img' dst_name.

(** [for onefile in files: body]: the iterator keeps an index into the
    list object and reads the list again at every turn; [fuel] bounds the
    number of turns. *)
Fixpoint for_files_from (fuel i : nat) (body : string → M unit) : M unit :=
  match fuel with
  | O => diverge
  | S fuel' =>
      s ← get;
      match files s !! i with
      | None => mret ()
      | Some onefile => body onefile;; for_files_from fuel' (S i) body
      end
  end.

Definition for_files (body : string → M unit) : M unit :=
  s ← get;
  for_files_from (S (length (files s))) 0 body.

(** [%%time] runs the cell and then reports the wall time it measured,
    [wall] seconds *)
Definition cell4 (wall : float) : M unit :=
  for_files convert_one;;
  log (EvWallTime wall).

(** *** Cell 5 *)
#[warnings="-inexact-float"]
Definition overall_speed (n : nat) : float :=
  PrimFloat.div (Fmt.float_of_nat n) 5.64%float.

Definition cell5 : M unit :=
  s ← get;
  print ("The overall speed is " +:+
         Fmt.format_1f (overall_speed (length (files s))) +:+
         " frame/second").

(** *** The whole notebook *)
Definition notebook (wall : float) : M unit :=
  cell1;; cell2;; cell3;; cell4 wall;; cell5.

(** a fresh session over a disk *)
Definition fresh (disk : gmap string node) : session :=
  Session [] "" "" disk [] [].

Definition run (wall : float) (disk : gmap string node) : outcome unit * session :=
  notebook wall (fresh disk).

End Notebook.

(** *** A toy image library, to run the notebook on examples *)

(** An image is its bytes; a file whose first byte is [x00] does not
    decode; only the format ["edf"] is known; the saved bytes are the
    image's, after a one-byte tag. *)
Definition toy_codec : Codec := {|
  image := list Byte.byte;
  decode := λ _ bytes,
    match bytes with
    | Byte.x00 :: _ => None
    | _ => Some bytes
    end;
  convert := λ img fmt, if String.eqb fmt "edf" then Some img else None;
  encode := λ img _, Some (Byte.x45 :: img);
|}.

(** ** Devices for stating the properties *)

(** visiting a fixed list in order, without looking at the session's
    [files] again *)
Fixpoint foreach (l : list string) (body : string → M unit) : M unit :=
  match l with
  | [] => mret ()
  | x :: l' => body x;; foreach l' body
  end.

(** the three calls made for one file when nothing fails *)
Definition calls_for (d fmt onefile : string) : list event :=
  [EvOpen onefile; EvConvert fmt; EvSave (dst_name_of d fmt onefile)].

Definition is_codec_call (e : event) : bool :=
  match e with
  | EvOpen _ | EvConvert _ | EvSave _ => true
  | _ => false
  end.

Definition is_glob_call (e : event) : bool :=
  match e with
  | EvGlob _ => true
  | _ => false
  end.

Definition is_makedirs_call (e : event) : bool :=
  match e with
  | EvMakedirs _ => true
  | _ => false
  end.

(** the paths passed to [save], in order *)
Definition saved_paths (t : list event) : list string :=
  omap (λ e, match e with EvSave p => Some p | _ => None end) t.

(** the paths passed to [fabio.open], in order *)
Definition opened_paths (t : list event) : list string :=
  omap (λ e, match e with EvOpen p => Some p | _ => None end) t.

(** what the image library makes of the bytes of one file *)
Definition converted `{Codec} (fmt onefile dst : string) (bytes : list Byte.byte)
  : option (list Byte.byte) :=
  img ← decode onefile bytes;
  img' ← convert img fmt;
  encode img' dst.

(** the names cell 1 finds on a disk, before sorting *)
Definition found (disk : gmap string node) : list string :=
  Glob.glob1 (Fs.listdir disk) "*.cbf".

(** cells 1 to 3, and cells 4 and 5 *)
Definition prepare `{Codec} : M unit := cell1;; cell2;; cell3.
Definition batch `{Codec} (wall : float) : M unit := cell4 wall;; cell5.

(** the session that cells 1 to 3 leave over a disk *)
Definition prepared (disk : gmap string node) : session :=
  let there := Fs.exists_ disk "edf_format" in
  let sorted := merge_sort Unicode.str_le (found disk) in
  Session sorted "edf" "edf_format"
    (if there then disk else <["edf_format" := Dir]> disk)
    ["Number of files: " +:+ Str.of_nat (length sorted)]
    ([EvGlob "*.cbf"; EvExists "edf_format"] ++
     if there then [] else [EvMakedirs "edf_format"]).

Definition add_events (l : list event) (s : session) : session :=
  Session (files s) (dest_format s) (dest_dir s) (fs s) (stdout s) (trace s ++ l).

(** the Python variables and the printed lines are the same in both *)
Definition same_vars (s s' : session) : Prop :=
  files s' = files s ∧ dest_format s' = dest_format s ∧
  dest_dir s' = dest_dir s ∧ stdout s' = stdout s.

(** the session holds the notebook's configuration *)
Definition configured (s : session) : Prop :=
  dest_dir s = "edf_format" ∧ dest_format s = "edf".

(** the line cell 5 prints for [n] files *)
Definition speed_line (n : nat) : string :=
  "The overall speed is " +:+ Fmt.format_1f (overall_speed n) +:+
  " frame/second".

(** the session at the end of cell 5, from the one at the end of the loop *)
Definition finish (wall : float) (s : session) : session :=
  add_line (speed_line (length (files s))) (add_events [EvWallTime wall] s).

(** the calls of a loop in which nothing fails *)
Definition loop_calls (l : list string) : list event :=
  flat_map (calls_for "edf_format" "edf") l.

(** the session after the three calls for [onefile] have succeeded and
    [out] has been written *)
Definition converted_session (onefile : string) (out : list Byte.byte)
    (s : session) : session :=
  set_fs (<[dst_name_of "edf_format" "edf" onefile := File out]> (fs s))
    (add_events (calls_for "edf_format" "edf" onefile) s).

(** the wall time that the notebook records for its loop, in seconds *)
#[warnings="-inexact-float"]
Definition recorded_wall : float := 1.06%float.

(** *** Disks to run the notebook on *)

Definition disk_empty : gmap string node := ∅.

Definition disk_abc : gmap string node :=
  <["c.cbf" := File [Byte.x03]]>
    (<["a.cbf" := File [Byte.x01]]> (<["b.cbf" := File [Byte.x02]]> ∅)).

(** [b.cbf] does not decode *)
Definition disk_corrupt_b : gmap string node :=
  <["c.cbf" := File [Byte.x03]]>
    (<["a.cbf" := File [Byte.x01]]> (<["b.cbf" := File [Byte.x00]]> ∅)).

(** a regular file sits where the destination directory should be *)
Definition disk_taken : gmap string node :=
  <["edf_format" := File []]> (<["a.cbf" := File [Byte.x01]]> ∅).

(** eighteen frames, as in the run whose output the notebook records *)
Definition disk_18 : gmap string node :=
  list_to_map ((λ n, (n, File [Byte.x01])) <$>
    ["f01.cbf"; "f02.cbf"; "f03.cbf"; "f04.cbf"; "f05.cbf"; "f06.cbf";
     "f07.cbf"; "f08.cbf"; "f09.cbf"; "f10.cbf"; "f11.cbf"; "f12.cbf";
     "f13.cbf"; "f14.cbf"; "f15.cbf"; "f16.cbf"; "f17.cbf"; "f18.cbf"]).

(** a directory whose name ends in [.cbf] sits between two frames *)
Definition disk_dir_cbf : gmap string node :=
  <["c.cbf" := File [Byte.x03]]>
    (<["a.cbf" := File [Byte.x01]]> (<["b.cbf" := Dir]> ∅)).

(** two names that bytes and code points order differently: the byte
    [FF] decodes to the escape U+DCFF, the bytes [EE 80 80] to U+E000 *)
Definition name_ff : string := String "255" ".cbf".
Definition name_ee8080 : string := String "238" (String "128" (String "128" ".cbf")).

Definition disk_escaped : gmap string node :=
  <[name_ee8080 := File [Byte.x01]]> (<[name_ff := File [Byte.x02]]> ∅).

(** the line cell 1 prints for [n] files *)
Definition count_line (n : nat) : string :=
  "Number of files: " +:+ Str.of_nat n.

(** [os.fsencode]: the bytes of a decoded name *)
Definition encode_cp (c : N) : string :=
  if (c <? 0x80)%N then String (ascii_of_N c) EmptyString
  else if (0xDC80 <=? c)%N && (c <=? 0xDCFF)%N then
    String (ascii_of_N (c - 0xDC00)) EmptyString
  else if (c <? 0x800)%N then
    String (ascii_of_N (0xC0 + c / 64))
      (String (ascii_of_N (0x80 + c mod 64)) EmptyString)
  else if (c <? 0x10000)%N then
    String (ascii_of_N (0xE0 + c / 4096))
      (String (ascii_of_N (0x80 + (c / 64) mod 64))
         (String (ascii_of_N (0x80 + c mod 64)) EmptyString))
  else
    String (ascii_of_N (0xF0 + c / 262144))
      (String (ascii_of_N (0x80 + (c / 4096) mod 64))
         (String (ascii_of_N (0x80 + (c / 64) mod 64))
            (String (ascii_of_N (0x80 + c mod 64)) EmptyString))).

Definition fsencode (k : list N) : string :=
  fold_right (λ c s, encode_cp c +:+ s) EmptyString k.

(** the destination path under the notebook's configuration *)
Definition dst (onefile : string) : string :=
  dst_name_of "edf_format" "edf" onefile.

(** a name that cell 1 can find: [stem.cbf], without a separator, not
    starting with a dot *)
Definition cbf_name (n stem : string) : Prop :=
  n = stem +:+ ".cbf" ∧ Str.contains "/" stem = false ∧
  ∃ a stem', stem = String a stem' ∧ a ≠ "."%char.


(** * Properties *)

(** ** Strings and paths *)

#[local] Arguments String.append : simpl nomatch.

Section StrFacts.

Lemma length_append (s t : string) :
  String.length (s +:+ t) = String.length s + String.length t.
Proof. induction s as [|a s IH]; simpl; [done | by rewrite IH]. Qed.

Lemma append_inj_r (s1 s2 t : string) : s1 +:+ t = s2 +:+ t → s1 = s2.
Proof.
  revert s2. induction s1 as [|a s1 IH]; intros [|b s2] Heq; simpl in *.
  - done.
  - apply (f_equal String.length) in Heq. simpl in Heq.
    rewrite length_append in Heq. lia.
  - apply (f_equal String.length) in Heq. simpl in Heq.
    rewrite length_append in Heq. lia.
  - injection Heq as -> Heq. f_equal. by apply IH.
Qed.

Lemma contains_append c s t :
  Str.contains c (s +:+ t) = Str.contains c s || Str.contains c t.
Proof.
  induction s as [|a s IH]; simpl; [done |].
  rewrite IH. by rewrite orb_assoc.
Qed.

Lemma rsplit_None c s : Str.contains c s = false → Str.rsplit c s = None.
Proof.
  induction s as [|a s IH]; simpl; [done |].
  intros [Ha Hs]%orb_false_iff. by rewrite (IH Hs), Ha.
Qed.

(** cutting at the last [c] finds the [c] after which there is none *)
Lemma rsplit_app c h t :
  Str.contains c t = false → Str.rsplit c (h +:+ String c t) = Some (h, t).
Proof.
  intros Ht. induction h as [|a h IH]; simpl.
  - by rewrite (rsplit_None _ _ Ht), Ascii.eqb_refl.
  - by rewrite IH.
Qed.

Lemma endswith_app p s : Str.endswith p (s +:+ p) = true.
Proof.
  induction s as [|a s IH]; simpl.
  - destruct p; simpl; by rewrite ?String.eqb_refl, ?Ascii.eqb_refl.
  - rewrite IH. apply orb_true_r.
Qed.

Lemma endswith_split p s : Str.endswith p s = true → ∃ h, s = h +:+ p.
Proof.
  induction s as [|a s IH]; cbn [Str.endswith].
  - rewrite orb_false_r. intros <-%String.eqb_eq. by exists "".
  - intros [<-%String.eqb_eq | [h ->]%IH]%orb_true_iff.
    + by exists "".
    + by exists (String a h).
Qed.

End StrFacts.

(** ** The order of names *)

Section UnicodeFacts.
Import Unicode.

Ltac Zify.zify_post_hook ::= Z.to_euclidean_division_equations.

Ltac to_prop :=
  unfold ok2, ok3, ok4, cont in *;
  repeat (progress rewrite ?andb_true_iff, ?orb_true_iff, ?N.leb_le,
            ?N.eqb_eq, ?N.ltb_lt in * ).

Ltac pick_branch :=
  repeat match goal with
  | |- context [N.ltb ?x ?y] =>
      destruct (N.ltb_spec x y); [try lia | try lia]
  | |- context [N.leb ?x ?y] =>
      destruct (N.leb_spec x y); [try lia | try lia]
  end; cbn [andb].

Lemma encode_cp_ascii b : (b < 0x80)%N → encode_cp b = String (ascii_of_N b) "".
Proof. intros Hb. unfold encode_cp. by rewrite (proj2 (N.ltb_lt _ _) Hb). Qed.

Lemma encode_cp_escape b :
  (0x80 <= b < 256)%N → encode_cp (escape b) = String (ascii_of_N b) "".
Proof.
  intros Hb. unfold encode_cp, escape. pick_branch.
  f_equal. f_equal. lia.
Qed.

Lemma encode_cp_2 b0 b1 :
  ok2 b0 b1 = true →
  encode_cp (cp2 b0 b1) = String (ascii_of_N b0) (String (ascii_of_N b1) "").
Proof.
  intros Hok. to_prop. unfold encode_cp, cp2. pick_branch.
  repeat f_equal; lia.
Qed.

Lemma encode_cp_3 b0 b1 b2 :
  ok3 b0 b1 b2 = true →
  encode_cp (cp3 b0 b1 b2) =
  String (ascii_of_N b0) (String (ascii_of_N b1) (String (ascii_of_N b2) "")).
Proof.
  intros Hok. to_prop. destruct_and?. destruct_or?; destruct_and?;
    unfold encode_cp, cp3; pick_branch; repeat f_equal; lia.
Qed.

Lemma encode_cp_4 b0 b1 b2 b3 :
  ok4 b0 b1 b2 b3 = true →
  encode_cp (cp4 b0 b1 b2 b3) =
  String (ascii_of_N b0)
    (String (ascii_of_N b1) (String (ascii_of_N b2) (String (ascii_of_N b3) ""))).
Proof.
  intros Hok. to_prop. destruct_and?. destruct_or?; destruct_and?;
    unfold encode_cp, cp4; pick_branch; repeat f_equal; lia.
Qed.

Lemma fsdecode_cons a0 s1 :
  fsdecode (String a0 s1) =
  let b0 := N_of_ascii a0 in
  if (b0 <? 0x80)%N then b0 :: fsdecode s1
  else
    match s1 with
    | String a1 s2 =>
        let b1 := N_of_ascii a1 in
        if ok2 b0 b1 then cp2 b0 b1 :: fsdecode s2
        else
          match s2 with
          | String a2 s3 =>
              let b2 := N_of_ascii a2 in
              if ok3 b0 b1 b2 then cp3 b0 b1 b2 :: fsdecode s3
              else
                match s3 with
                | String a3 s4 =>
                    let b3 := N_of_ascii a3 in
                    if ok4 b0 b1 b2 b3 then cp4 b0 b1 b2 b3 :: fsdecode s4
                    else escape b0 :: fsdecode s1
                | EmptyString => escape b0 :: fsdecode s1
                end
          | EmptyString => escape b0 :: fsdecode s1
          end
    | EmptyString => escape b0 :: fsdecode s1
    end.
Proof. reflexivity. Qed.

Lemma fsencode_cons c k : fsencode (c :: k) = encode_cp c +:+ fsencode k.
Proof. reflexivity. Qed.

(** encoding gives back the bytes of the name: [os.fsencode(os.fsdecode(b)) == b] *)
Lemma fsencode_fsdecode s : fsencode (fsdecode s) = s.
Proof.
  assert (∀ n s, String.length s ≤ n → fsencode (fsdecode s) = s) as Hall;
    [| by apply (Hall (String.length s))].
  clear s. induction n as [|n IH]; intros [|a0 s1] Hlen; cbn in Hlen;
    [done | lia | done |].
  rewrite fsdecode_cons. cbv zeta.
  pose proof (N_ascii_bounded a0) as Hb0.
  destruct (N.ltb_spec (N_of_ascii a0) 0x80) as [Hlt | Hge].
  { rewrite fsencode_cons, encode_cp_ascii, ascii_N_embedding, IH by (done || lia).
    done. }
  assert (fsencode (escape (N_of_ascii a0) :: fsdecode s1) = String a0 s1) as Hesc.
  { rewrite fsencode_cons, encode_cp_escape, ascii_N_embedding, IH by (done || lia).
    done. }
  destruct s1 as [|a1 s2]; [exact Hesc |].
  destruct (ok2 _ _) eqn:H2.
  { rewrite fsencode_cons, encode_cp_2, !ascii_N_embedding, IH by (done || cbn in *; lia).
    done. }
  destruct s2 as [|a2 s3]; [exact Hesc |].
  destruct (ok3 _ _ _) eqn:H3.
  { rewrite fsencode_cons, encode_cp_3, !ascii_N_embedding, IH by (done || cbn in *; lia).
    done. }
  destruct s3 as [|a3 s4]; [exact Hesc |].
  destruct (ok4 _ _ _ _) eqn:H4; [| exact Hesc].
  rewrite fsencode_cons, encode_cp_4, !ascii_N_embedding, IH by (done || cbn in *; lia).
  done.
Qed.

Lemma fsdecode_inj s t : fsdecode s = fsdecode t → s = t.
Proof.
  intros Heq. rewrite <- (fsencode_fsdecode s), <- (fsencode_fsdecode t).
  by rewrite Heq.
Qed.

Lemma lex_leb_refl k : lex_leb k k = true.
Proof. induction k as [|x k IH]; [done |]. cbn. by rewrite N.compare_refl. Qed.

Lemma lex_leb_trans k1 k2 k3 :
  lex_leb k1 k2 = true → lex_leb k2 k3 = true → lex_leb k1 k3 = true.
Proof.
  revert k2 k3. induction k1 as [|x k1 IH]; intros [|y k2] [|z k3]; cbn; try done.
  destruct (N.compare_spec x y), (N.compare_spec y z), (N.compare_spec x z);
    try done; try lia.
  apply IH.
Qed.

Lemma lex_leb_antisym k1 k2 :
  lex_leb k1 k2 = true → lex_leb k2 k1 = true → k1 = k2.
Proof.
  revert k2. induction k1 as [|x k1 IH]; intros [|y k2]; cbn; try done.
  destruct (N.compare_spec x y), (N.compare_spec y x); try done; try lia.
  intros ? ?. subst. f_equal. by apply IH.
Qed.

Lemma lex_leb_total k1 k2 : lex_leb k1 k2 = true ∨ lex_leb k2 k1 = true.
Proof.
  revert k2. induction k1 as [|x k1 IH]; intros [|y k2]; cbn; auto.
  destruct (N.compare_spec x y), (N.compare_spec y x); auto; lia.
Qed.

#[global] Instance str_le_po : PartialOrder str_le.
Proof.
  split; [split |].
  - intros s. apply lex_leb_refl.
  - intros s t u. apply lex_leb_trans.
  - intros s t Hst Hts. apply fsdecode_inj. by apply lex_leb_antisym.
Qed.

#[global] Instance str_le_total : Total str_le.
Proof. intros s t. apply lex_leb_total. Qed.

End UnicodeFacts.

(** ** What [glob.glob("*.cbf")] returns *)

Section GlobFacts.

Lemma fnmatch_literal_cbf s :
  Fnmatch.fnmatchcase_rev ".cbf" s = String.eqb s ".cbf".
Proof.
  destruct s as [|a [|b [|c [|d [|e s]]]]];
    cbn [Fnmatch.fnmatchcase_rev String.eqb];
    rewrite ?(Ascii.eqb_sym "." a), ?(Ascii.eqb_sym "c" b),
      ?(Ascii.eqb_sym "b" c), ?(Ascii.eqb_sym "f" d);
    repeat match goal with
      | |- context [Ascii.eqb ?x ?y] => destruct (Ascii.eqb x y)
      end;
    done.
Qed.

Lemma fnmatch_star pat n :
  Fnmatch.fnmatchcase_rev (String "*" pat) n =
  Fnmatch.fnmatchcase_rev pat n ||
  match n with
  | EmptyString => false
  | String _ n' => Fnmatch.fnmatchcase_rev (String "*" pat) n'
  end.
Proof. destruct n; reflexivity. Qed.

(** the pattern of the notebook selects the names that end in [.cbf] *)
Lemma fnmatch_star_cbf n :
  Fnmatch.fnmatchcase n "*.cbf" = Str.endswith ".cbf" n.
Proof.
  unfold Fnmatch.fnmatchcase.
  induction n as [|a n IH]; rewrite fnmatch_star, fnmatch_literal_cbf;
    cbn [Str.endswith]; [done |].
  by rewrite IH.
Qed.

Lemma elem_of_listdir (disk : gmap string node) n :
  n ∈ Fs.listdir disk ↔ is_Some (disk !! n) ∧ Str.contains "/" n = false.
Proof.
  unfold Fs.listdir. rewrite list_elem_of_In, filter_In, <- list_elem_of_In.
  rewrite elem_of_elements, elem_of_dom, negb_true_iff. done.
Qed.

Lemma NoDup_listdir (disk : gmap string node) : NoDup (Fs.listdir disk).
Proof.
  unfold Fs.listdir. apply NoDup_ListNoDup, List.NoDup_filter, NoDup_ListNoDup.
  apply NoDup_elements.
Qed.

Lemma elem_of_found (disk : gmap string node) n :
  n ∈ found disk ↔
  is_Some (disk !! n) ∧ Str.contains "/" n = false ∧
  Glob.ishidden n = false ∧ Str.endswith ".cbf" n = true.
Proof.
  unfold found, Glob.glob1, Fnmatch.filter.
  change (Glob.ishidden "*.cbf") with false. cbv iota.
  rewrite list_elem_of_In, !filter_In, <- list_elem_of_In, elem_of_listdir.
  rewrite fnmatch_star_cbf, negb_true_iff. tauto.
Qed.

Lemma NoDup_found (disk : gmap string node) : NoDup (found disk).
Proof.
  unfold found, Glob.glob1, Fnmatch.filter.
  change (Glob.ishidden "*.cbf") with false. cbv iota.
  apply NoDup_ListNoDup, List.NoDup_filter, List.NoDup_filter, NoDup_ListNoDup.
  apply NoDup_listdir.
Qed.

Lemma found_cbf_name (disk : gmap string node) n :
  n ∈ found disk → ∃ stem, cbf_name n stem.
Proof.
  rewrite elem_of_found. intros (_ & Hsep & Hhid & [stem ->]%endswith_split).
  exists stem. split; [done |].
  rewrite contains_append in Hsep. apply orb_false_iff in Hsep as [Hsep _].
  split; [done |].
  unfold Glob.ishidden in Hhid.
  destruct stem as [|a stem']; [done |].
  exists a, stem'. split; [done |].
  intros ->. done.
Qed.

End GlobFacts.

(** ** The destination path *)

Section DstFacts.
Context (n stem : string) (Hn : cbf_name n stem).

Lemma cbf_name_no_sep : Str.contains "/" n = false.
Proof.
  destruct Hn as (-> & Hsep & _). rewrite contains_append, Hsep. done.
Qed.

Lemma cbf_name_basename : Path.basename n = n.
Proof.
  unfold Path.basename, Path.sep. by rewrite (rsplit_None _ _ cbf_name_no_sep).
Qed.

Lemma cbf_name_splitext : Path.splitext n = (stem, ".cbf").
Proof.
  unfold Path.splitext, Path.sep.
  rewrite (rsplit_None _ _ cbf_name_no_sep).
  destruct Hn as (-> & _ & a & stem' & -> & Ha).
  change (String a stem' +:+ ".cbf") with (String a stem' +:+ String "." "cbf").
  unfold Path.extsep. rewrite rsplit_app by done.
  cbn [Str.all_char]. apply Ascii.eqb_neq in Ha. by rewrite Ha.
Qed.

Lemma cbf_name_dst d fmt :
  dst_name_of d fmt n = Path.join d (stem +:+ "." +:+ fmt).
Proof. unfold dst_name_of. by rewrite cbf_name_splitext. Qed.

Lemma cbf_name_dst_edf :
  dst_name_of "edf_format" "edf" n = "edf_format/" +:+ stem +:+ ".edf".
Proof.
  rewrite cbf_name_dst. unfold Path.join.
  destruct Hn as (_ & Hsep & a & stem' & -> & _).
  cbn [Str.contains] in Hsep. apply orb_false_iff in Hsep as [Ha _].
  rewrite Ascii.eqb_sym in Ha.
  cbn [Str.startswith String.append]. rewrite Ha. done.
Qed.

Lemma cbf_name_dst_parent :
  Path.parent (dst_name_of "edf_format" "edf" n) = Some "edf_format".
Proof.
  rewrite cbf_name_dst_edf. unfold Path.parent.
  change ("edf_format/" +:+ stem +:+ ".edf")
    with ("edf_format" +:+ String "/" (stem +:+ ".edf")).
  unfold Path.sep. rewrite rsplit_app; [done |].
  destruct Hn as (_ & Hsep & _). by rewrite contains_append, Hsep.
Qed.

Lemma cbf_name_dst_has_sep :
  Str.contains "/" (dst_name_of "edf_format" "edf" n) = true.
Proof. by rewrite cbf_name_dst_edf. Qed.

End DstFacts.

Lemma cbf_name_dst_inj n1 s1 n2 s2 :
  cbf_name n1 s1 → cbf_name n2 s2 →
  dst_name_of "edf_format" "edf" n1 = dst_name_of "edf_format" "edf" n2 →
  n1 = n2.
Proof.
  intros H1 H2. rewrite (cbf_name_dst_edf _ _ H1), (cbf_name_dst_edf _ _ H2).
  intros Heq%(inj (String.append "edf_format/"))%append_inj_r.
  destruct H1 as (-> & _), H2 as (-> & _). by rewrite Heq.
Qed.

(** ** The cells, step by step *)

Ltac unfold_monad :=
  cbv [mbind M_bind mret M_ret glob_glob files_sort os_path_exists
         os_makedirs on_fs log print modify get raise fabio add_event add_line
         add_events set_files set_dest_dir set_dest_format set_fs
         files dest_format dest_dir fs stdout trace].

Section RunFacts.
Context `{Codec}.

Lemma makedirs_edf_format (disk : gmap string node) :
  Fs.exists_ disk "edf_format" = false →
  Fs.makedirs disk "edf_format" = inr (<["edf_format" := Dir]> disk).
Proof.
  intros Hex. unfold Fs.makedirs.
  change (Path.ancestors "edf_format") with (@nil string).
  cbn [Fs.makedirs_in]. unfold Fs.mkdir, Fs.check_parent.
  change (Path.parent "edf_format") with (@None string).
  unfold Fs.exists_ in Hex. apply bool_decide_eq_false in Hex.
  destruct (disk !! "edf_format") eqn:Hd; [| done].
  destruct Hex. eauto.
Qed.

(** cells 1 to 3 never raise *)
Lemma prepare_fresh disk : prepare (fresh disk) = (Ret (), prepared disk).
Proof.
  unfold prepare, prepared, cell1, cell2, cell3, fresh. unfold_monad.
  fold (found disk).
  destruct (Fs.exists_ disk "edf_format") eqn:Hex; cbn [negb app]; [done |].
  by rewrite (makedirs_edf_format _ Hex).
Qed.

Lemma run_eq wall disk : run wall disk = batch wall (prepared disk).
Proof.
  unfold run, notebook, batch.
  pose proof (prepare_fresh disk) as Hp. unfold prepare in Hp.
  revert Hp. unfold_monad.
  destruct (cell1 (fresh disk)) as [[[]| |] s1]; try done.
  destruct (cell2 s1) as [[[]| |] s2]; try done.
  destruct (cell3 s2) as [[[]| |] s3]; try done.
  by intros [= ->].
Qed.

(** the body of the loop, case by case *)
Lemma convert_one_eq onefile s :
  convert_one onefile s =
  let p := dst_name_of (dest_dir s) (dest_format s) onefile in
  match Fs.read (fs s) onefile with
  | inl e => (Raise e, add_events [EvOpen onefile] s)
  | inr bytes =>
      match decode onefile bytes with
      | None => (Raise FabioError, add_events [EvOpen onefile] s)
      | Some img =>
          match convert img (dest_format s) with
          | None =>
              (Raise FabioError,
               add_events [EvOpen onefile; EvConvert (dest_format s)] s)
          | Some img' =>
              match encode img' p with
              | None =>
                  (Raise FabioError,
                   add_events (calls_for (dest_dir s) (dest_format s) onefile) s)
              | Some out =>
                  match Fs.write (fs s) p out with
                  | inl e =>
                      (Raise e,
                       add_events (calls_for (dest_dir s) (dest_format s) onefile) s)
                  | inr m =>
                      (Ret (),
                       set_fs m
                         (add_events (calls_for (dest_dir s) (dest_format s) onefile) s))
                  end
              end
          end
      end
  end.
Proof.
  destruct s as [fl fmt d m out tr].
  unfold convert_one, fabio_open, image_convert, image_save, calls_for.
  unfold_monad. cbv zeta.
  destruct (Fs.read _ _) as [e | bytes]; [done |].
  destruct (decode _ _) as [img |]; [| done].
  destruct (convert _ _) as [img' |]; [| by rewrite <- !app_assoc].
  destruct (encode _ _) as [out' |]; [| by rewrite <- !app_assoc].
  destruct (Fs.write _ _ _) as [e | m']; by rewrite <- !app_assoc.
Qed.

Lemma bind_run {A B} (m : M A) (k : A → M B) s :
  (m ≫= k) s =
  match m s with
  | (Ret a, s') => k a s'
  | (Raise e, s') => (Raise e, s')
  | (Diverge, s') => (Diverge, s')
  end.
Proof. reflexivity. Qed.

Lemma foreach_cons x l body s :
  foreach (x :: l) body s =
  match body x s with
  | (Ret _, s') => foreach l body s'
  | (Raise e, s') => (Raise e, s')
  | (Diverge, s') => (Diverge, s')
  end.
Proof. reflexivity. Qed.

Lemma foreach_app l1 l2 body s :
  foreach (l1 ++ l2) body s =
  match foreach l1 body s with
  | (Ret _, s') => foreach l2 body s'
  | (Raise e, s') => (Raise e, s')
  | (Diverge, s') => (Diverge, s')
  end.
Proof.
  revert s. induction l1 as [|x l1 IH]; intros s; [done |].
  rewrite <- app_comm_cons, !foreach_cons.
  destruct (body x s) as [[[]| e |] s']; [apply IH | done | done].
Qed.

Lemma foreach_app_ok l1 l2 body s s' :
  foreach (l1 ++ l2) body s = (Ret (), s') →
  ∃ s1, foreach l1 body s = (Ret (), s1) ∧ foreach l2 body s1 = (Ret (), s').
Proof.
  rewrite foreach_app.
  destruct (foreach l1 body s) as [[[]| e |] s1]; [| done..].
  intros Hrun. by exists s1.
Qed.

(** the loop over the live list is the visit of the list as it was when
    the loop began, provided the body leaves [files] alone; it stops *)
Lemma for_files_from_foreach body :
  (∀ x s, files (body x s).2 = files s) →
  ∀ fuel i s, length (files s) - i < fuel →
    for_files_from fuel i body s = foreach (drop i (files s)) body s.
Proof.
  intros Hbody. induction fuel as [|fuel IH]; intros i s Hfuel; [lia |].
  cbn [for_files_from]. rewrite bind_run. cbn [get].
  destruct (files s !! i) as [x |] eqn:Hx.
  - rewrite (drop_S _ _ _ Hx), foreach_cons, bind_run.
    pose proof (Hbody x s) as Hfiles.
    destruct (body x s) as [[[]| e |] s']; [| done | done].
    cbn in Hfiles. rewrite <- Hfiles. apply IH.
    rewrite Hfiles. apply lookup_lt_Some in Hx. lia.
  - apply lookup_ge_None in Hx. by rewrite drop_ge.
Qed.

Lemma for_files_foreach body :
  (∀ x s, files (body x s).2 = files s) →
  ∀ s, for_files body s = foreach (files s) body s.
Proof.
  intros Hbody s. unfold for_files. rewrite bind_run. cbn [get].
  rewrite (for_files_from_foreach body Hbody) by lia. done.
Qed.

(** the body changes no Python variable and prints nothing *)
Lemma convert_one_vars onefile s : same_vars s (convert_one onefile s).2.
Proof.
  rewrite convert_one_eq. cbv zeta.
  repeat case_match; done.
Qed.

Lemma convert_one_files onefile s : files (convert_one onefile s).2 = files s.
Proof. apply convert_one_vars. Qed.

Lemma foreach_vars l s : same_vars s (foreach l convert_one s).2.
Proof.
  revert s. induction l as [|x l IH]; intros s; [done |].
  rewrite foreach_cons. pose proof (convert_one_vars x s) as Hx.
  destruct (convert_one x s) as [[[]| e |] s']; [| done | done].
  specialize (IH s'). unfold same_vars in *. cbn in Hx.
  destruct Hx as (<- & <- & <- & <-). done.
Qed.

Lemma foreach_no_diverge l s : (foreach l convert_one s).1 ≠ Diverge.
Proof.
  revert s. induction l as [|x l IH]; intros s; [done |].
  rewrite foreach_cons.
  destruct (convert_one x s) as [[[]| e |] s'] eqn:Hx; [apply IH | done |].
  exfalso. revert Hx. rewrite convert_one_eq. cbv zeta.
  repeat case_match; done.
Qed.

(** cells 4 and 5 after the loop *)
Lemma batch_eq wall s :
  batch wall s =
  match foreach (files s) convert_one s with
  | (Ret _, s') => (Ret (), finish wall s')
  | (Raise e, s') => (Raise e, s')
  | (Diverge, s') => (Diverge, s')
  end.
Proof.
  unfold batch, cell4, cell5. rewrite !bind_run.
  rewrite (for_files_foreach convert_one convert_one_files).
  destruct (foreach (files s) convert_one s) as [[[]| e |] s']; done.
Qed.

(** the calls made by the loop are the calls of a loop without failure,
    up to the point where it stops *)
Lemma foreach_trace l s :
  configured s →
  ∃ t, trace (foreach l convert_one s).2 = trace s ++ t ∧
       t `prefix_of` loop_calls l ∧
       ((foreach l convert_one s).1 = Ret () → t = loop_calls l).
Proof.
  revert s. induction l as [|x l IH]; intros s Hs.
  - exists []. cbn. by rewrite app_nil_r.
  - rewrite foreach_cons.
    pose proof (convert_one_vars x s) as (_ & Hfmt & Hdir & _).
    pose proof (convert_one_eq x s) as Hx. cbv zeta in Hx.
    destruct Hs as [Hd Hf]. rewrite Hd, Hf in Hx.
    unfold loop_calls. cbn [flat_map].
    destruct (convert_one x s) as [[[]| e |] s'] eqn:Hrun; cbn in Hfmt, Hdir.
    + destruct (IH s') as (t & Ht & Hpre & Hok); [split; congruence |].
      exists (calls_for "edf_format" "edf" x ++ t). rewrite Ht.
      repeat case_match; simplify_eq; cbn [trace add_events set_fs].
      split; [by rewrite app_assoc |].
      split; [by apply prefix_app | intros Hr; by rewrite (Hok Hr)].
    + repeat case_match; simplify_eq; cbn [trace add_events set_fs fst snd];
        (eexists; split; [done |]; split; [| done]);
        apply prefix_app_r; unfold calls_for; eexists; reflexivity.
    + repeat case_match; simplify_eq.
Qed.

(** writing under [edf_format] *)
Lemma write_dst (m : gmap string node) f stem out :
  cbf_name f stem →
  Fs.write m (dst f) out =
  match m !! dst f with
  | Some Dir => inl IsADirectoryError
  | _ =>
      match m !! "edf_format" with
      | Some Dir => inr (<[dst f := File out]> m)
      | Some (File _) => inl NotADirectoryError
      | None => inl FileNotFoundError
      end
  end.
Proof.
  intros Hf. unfold Fs.write, Fs.check_parent, dst.
  rewrite (cbf_name_dst_parent _ _ Hf).
  repeat case_match; simplify_eq; done.
Qed.

Lemma cbf_name_ne_dst f stem g stem' :
  cbf_name f stem → cbf_name g stem' → f ≠ dst g.
Proof.
  intros Hf Hg Heq. pose proof (cbf_name_no_sep _ _ Hf) as Hsep.
  rewrite Heq in Hsep. unfold dst in Hsep.
  by rewrite (cbf_name_dst_has_sep _ _ Hg) in Hsep.
Qed.

Lemma edf_format_ne_dst g stem : cbf_name g stem → "edf_format" ≠ dst g.
Proof.
  intros Hg Heq. pose proof (cbf_name_dst_has_sep _ _ Hg) as Hsep.
  fold (dst g) in Hsep. by rewrite <- Heq in Hsep.
Qed.

(** when the calls for one file succeed *)
Lemma convert_one_ok f stem s s' :
  configured s → cbf_name f stem →
  convert_one f s = (Ret (), s') →
  ∃ bytes out,
    fs s !! f = Some (File bytes) ∧
    converted "edf" f (dst f) bytes = Some out ∧
    fs s !! "edf_format" = Some Dir ∧
    s' = converted_session f out s.
Proof.
  intros [Hd Hfmt] Hf. rewrite convert_one_eq. cbv zeta.
  rewrite Hd, Hfmt. fold (dst f). unfold Fs.read, converted.
  destruct (fs s !! f) as [[bytes |] |]; [| done | done].
  destruct (decode f bytes) as [img |] eqn:Himg; [| done].
  destruct (convert img "edf") as [img' |] eqn:Himg'; [| done].
  destruct (encode img' (dst f)) as [out |] eqn:Hout; [| done].
  rewrite (write_dst _ _ _ _ Hf).
  intros Hrun. exists bytes, out. rewrite Himg. cbn. rewrite Himg'. cbn.
  repeat case_match; simplify_eq; done.
Qed.

Lemma convert_one_again f stem s bytes out :
  configured s → cbf_name f stem →
  fs s !! f = Some (File bytes) →
  converted "edf" f (dst f) bytes = Some out →
  fs s !! "edf_format" = Some Dir →
  fs s !! dst f = Some (File out) →
  convert_one f s = (Ret (), set_fs (fs s) (add_events (loop_calls [f]) s)).
Proof.
  intros [Hd Hfmt] Hf Hin Hconv Hdir Hout. rewrite convert_one_eq. cbv zeta.
  rewrite Hd, Hfmt. fold (dst f). unfold Fs.read. rewrite Hin.
  unfold converted in Hconv.
  destruct (decode f bytes) as [img |]; cbn in Hconv; [| done].
  destruct (convert img "edf") as [img' |]; cbn in Hconv; [| done].
  rewrite Hconv, (write_dst _ _ _ _ Hf), Hout, Hdir.
  rewrite (insert_id _ _ _ Hout). unfold loop_calls. cbn [flat_map].
  by rewrite app_nil_r.
Qed.

Lemma configured_converted f out s :
  configured s → configured (converted_session f out s).
Proof. done. Qed.

(** a loop that ends without failure: what it read, what it wrote, and
    what it left alone *)
Lemma foreach_ok l : ∀ s s',
  configured s →
  Forall (λ f, ∃ stem, cbf_name f stem) l →
  NoDup l →
  foreach l convert_one s = (Ret (), s') →
  (∀ f, f ∈ l → ∃ bytes out,
     fs s !! f = Some (File bytes) ∧
     converted "edf" f (dst f) bytes = Some out ∧
     fs s' !! dst f = Some (File out)) ∧
  (l ≠ [] → fs s' !! "edf_format" = Some Dir) ∧
  (∀ k, k ∉ dst <$> l → fs s' !! k = fs s !! k).
Proof.
  induction l as [|x l IH]; intros s s' Hs Hnames Hnodup Hrun.
  - injection Hrun as <-. split; [by intros f ?%not_elem_of_nil |]. done.
  - apply Forall_cons in Hnames as [[stem Hx] Hnames].
    apply NoDup_cons in Hnodup as [Hxl Hnodup].
    rewrite foreach_cons in Hrun.
    destruct (convert_one x s) as [[[]| e |] s1] eqn:Hone; [| done | done].
    destruct (convert_one_ok _ _ _ _ Hs Hx Hone)
      as (bytes & out & Hin & Hconv & Hdir & ->).
    destruct (IH _ _ (configured_converted x out s Hs) Hnames Hnodup Hrun)
      as (Hfiles & Hdest & Hframe).
    cbn [fs converted_session set_fs add_events] in Hfiles, Hframe.
    fold (dst x) in Hfiles, Hframe.
    assert (dst x ∉ dst <$> l) as Hfresh.
    { intros (g & Heq & Hg)%list_elem_of_fmap.
      rewrite Forall_forall in Hnames. destruct (Hnames g Hg) as [stem' Hg'].
      apply (cbf_name_dst_inj _ _ _ _ Hx Hg') in Heq. by subst. }
    split; [| split].
    + intros f [-> | Hf]%elem_of_cons.
      * exists bytes, out. repeat split; [done.. |].
        rewrite (Hframe _ Hfresh). apply lookup_insert_eq.
      * destruct (Hfiles f Hf) as (bytes' & out' & Hin' & Hconv' & Hout').
        exists bytes', out'. repeat split; [| done..].
        rewrite Forall_forall in Hnames. destruct (Hnames f Hf) as [stem' Hf'].
        rewrite lookup_insert_ne in Hin'; [done |].
        intros Heq. by apply (cbf_name_ne_dst _ _ _ _ Hf' Hx).
    + intros _. destruct l as [|y l'].
      * injection Hrun as <-. cbn [fs converted_session set_fs add_events].
        fold (dst x). rewrite lookup_insert_ne; [done |].
        intros Heq. by apply (edf_format_ne_dst _ _ Hx).
      * by apply Hdest.
    + intros k Hk. rewrite fmap_cons, not_elem_of_cons in Hk.
      destruct Hk as [Hkx Hkl]. rewrite (Hframe k Hkl).
      by rewrite lookup_insert_ne.
Qed.

(** a loop over a disk that already holds every output rewrites each
    file with the bytes it has *)
Lemma foreach_again l : ∀ s,
  configured s →
  Forall (λ f, ∃ stem, cbf_name f stem) l →
  (∀ f, f ∈ l → ∃ bytes out,
     fs s !! f = Some (File bytes) ∧
     converted "edf" f (dst f) bytes = Some out ∧
     fs s !! dst f = Some (File out)) →
  (l ≠ [] → fs s !! "edf_format" = Some Dir) →
  foreach l convert_one s = (Ret (), add_events (loop_calls l) s).
Proof.
  induction l as [|x l IH]; intros s Hs Hnames Hfiles Hdir.
  - destruct s. cbn. unfold add_events. cbn. by rewrite app_nil_r.
  - apply Forall_cons in Hnames as [[stem Hx] Hnames].
    destruct (Hfiles x) as (bytes & out & Hin & Hconv & Hout); [left |].
    rewrite foreach_cons.
    rewrite (convert_one_again _ _ _ _ _ Hs Hx Hin Hconv (Hdir ltac:(done)) Hout).
    rewrite IH.
    + destruct s. unfold add_events, set_fs, loop_calls. cbn.
      by rewrite <- !app_assoc.
    + done.
    + done.
    + intros f Hf. destruct s. apply Hfiles. by right.
    + intros _. destruct s. by apply Hdir.
Qed.

Lemma configured_prepared disk : configured (prepared disk).
Proof. done. Qed.

(** the shape of every run: the calls and the lines of cells 1 to 3, then
    the calls of the loop up to where it stops, then, if nothing failed,
    the timing report and the line of cell 5 *)
Lemma run_shape wall disk :
  ∃ t, t `prefix_of` loop_calls (files (prepared disk)) ∧
    same_vars (prepared disk) (foreach (files (prepared disk)) convert_one (prepared disk)).2 ∧
    match foreach (files (prepared disk)) convert_one (prepared disk) with
    | (Ret _, s') =>
        t = loop_calls (files (prepared disk)) ∧
        trace s' = trace (prepared disk) ++ t ∧
        run wall disk = (Ret (), finish wall s')
    | (Raise e, s') =>
        trace s' = trace (prepared disk) ++ t ∧
        run wall disk = (Raise e, s')
    | (Diverge, _) => False
    end.
Proof.
  destruct (foreach_trace (files (prepared disk)) (prepared disk))
    as (t & Ht & Hpre & Hok); [done |].
  exists t. split; [done |]. split; [apply foreach_vars |].
  rewrite run_eq, batch_eq.
  pose proof (foreach_no_diverge (files (prepared disk)) (prepared disk)) as Hnd.
  destruct (foreach _ _ _) as [[[]| e |] s']; cbn in *; [| done | done].
  split; [by apply Hok | done].
Qed.

Lemma loop_calls_codec l : forallb is_codec_call (loop_calls l) = true.
Proof. induction l as [|x l IH]; [done | exact IH]. Qed.

Lemma forallb_prefix {A} (f : A → bool) (t l : list A) :
  t `prefix_of` l → forallb f l = true → forallb f t = true.
Proof.
  intros [k ->]. rewrite forallb_app. by intros [? _]%andb_true_iff.
Qed.

Lemma filter_none {A} (f g : A → bool) (l : list A) :
  (∀ x, g x = true → f x = false) → forallb g l = true → List.filter f l = [].
Proof.
  intros Hfg. induction l as [|x l IH]; [done |]. cbn.
  intros [Hx Hl]%andb_true_iff. by rewrite (Hfg x Hx), IH.
Qed.

Lemma saved_paths_app t1 t2 :
  saved_paths (t1 ++ t2) = saved_paths t1 ++ saved_paths t2.
Proof. apply omap_app. Qed.

Lemma opened_paths_app t1 t2 :
  opened_paths (t1 ++ t2) = opened_paths t1 ++ opened_paths t2.
Proof. apply omap_app. Qed.

Lemma saved_paths_loop_calls l : saved_paths (loop_calls l) = dst <$> l.
Proof. induction l as [|x l IH]; [done |]. cbn. by rewrite <- IH. Qed.

Lemma opened_paths_loop_calls l : opened_paths (loop_calls l) = l.
Proof. induction l as [|x l IH]; [done |]. cbn. by rewrite <- IH at 2. Qed.

Lemma saved_paths_prepared disk : saved_paths (trace (prepared disk)) = [].
Proof. unfold prepared. cbn. by destruct (Fs.exists_ _ _). Qed.

Lemma opened_paths_prepared disk : opened_paths (trace (prepared disk)) = [].
Proof. unfold prepared. cbn. by destruct (Fs.exists_ _ _). Qed.

(** ** The sorted list of names *)

Lemma sorted_perm_eq (l l' : list string) :
  l ≡ₚ l' → merge_sort Unicode.str_le l = merge_sort Unicode.str_le l'.
Proof.
  intros Hp. apply (StronglySorted_unique Unicode.str_le).
  - apply StronglySorted_merge_sort; apply _.
  - apply StronglySorted_merge_sort; apply _.
  - by rewrite !merge_sort_Permutation.
Qed.

Lemma files_prepared_names disk :
  Forall (λ f, ∃ stem, cbf_name f stem) (files (prepared disk)).
Proof.
  apply Forall_forall. intros f Hf. apply (found_cbf_name disk).
  revert Hf. cbn. by rewrite merge_sort_Permutation.
Qed.

Lemma files_prepared_NoDup disk : NoDup (files (prepared disk)).
Proof. cbn. rewrite merge_sort_Permutation. apply NoDup_found. Qed.

End RunFacts.

(** a loop over a list that is not empty begins by opening its head *)
Lemma foreach_first `{Codec} f l s :
  configured s →
  ∃ t, trace (foreach (f :: l) convert_one s).2 = trace s ++ EvOpen f :: t.
Proof.
  intros Hs. rewrite foreach_cons.
  pose proof (convert_one_vars f s) as (_ & Hfmt & Hdir & _).
  assert (∃ t, trace (convert_one f s).2 = trace s ++ EvOpen f :: t) as [t Ht].
  { rewrite convert_one_eq. cbv zeta. unfold calls_for.
    repeat case_match; cbn [snd trace set_fs add_events]; by eexists. }
  destruct (convert_one f s) as [[[]| e |] s'];
    cbn [snd] in *; [| by exists t..].
  destruct (foreach_trace l s') as (t' & Ht' & _).
  { destruct Hs. split; congruence. }
  exists (t ++ t'). by rewrite Ht', Ht, <- app_assoc.
Qed.

(** ** Runs that end without failure *)

Section RunOk.
Context `{Codec}.

Lemma run_ok_inv wall disk s :
  run wall disk = (Ret (), s) →
  ∃ s1, foreach (files (prepared disk)) convert_one (prepared disk) = (Ret (), s1) ∧
        s = finish wall s1 ∧
        trace s1 = trace (prepared disk) ++ loop_calls (files (prepared disk)) ∧
        same_vars (prepared disk) s1.
Proof.
  intros Hrun.
  destruct (run_shape wall disk) as (t & _ & Hvars & Hshape).
  destruct (foreach _ _ _) as [[[]| e |] s1]; [| | done].
  - destruct Hshape as (-> & Htrace & Hrun'). exists s1.
    rewrite Hrun in Hrun'. by simplify_eq.
  - destruct Hshape as (_ & Hrun'). rewrite Hrun in Hrun'. done.
Qed.

(** the variable [files] at the end of a run, failed or not *)
Lemma run_files wall disk : files (run wall disk).2 = files (prepared disk).
Proof.
  destruct (run_shape wall disk) as (t & _ & (Hfiles & _) & Hrun).
  destruct (foreach _ _ _) as [[[]| e |] s']; [| | done]; cbn in Hfiles.
  - destruct Hrun as (_ & _ & ->). done.
  - destruct Hrun as (_ & ->). done.
Qed.

(** the calls of the image library in a run, failed or not *)
Lemma run_calls_prefix wall disk :
  List.filter is_codec_call (trace (run wall disk).2)
    `prefix_of` loop_calls (files (prepared disk)).
Proof.
  destruct (run_shape wall disk) as (t & Hpre & _ & Hrun).
  assert (List.filter is_codec_call (trace (prepared disk)) = []) as Hp
    by (cbn; by destruct (Fs.exists_ _ _)).
  assert (List.filter is_codec_call t = t) as Ht.
  { apply forallb_filter_id. eapply forallb_prefix; [done |].
    apply loop_calls_codec. }
  destruct (foreach _ _ _) as [[[]| e |] s']; [| | done].
  - destruct Hrun as (-> & Htrace & ->).
    cbn [snd finish add_line add_events trace].
    rewrite Htrace, !List.filter_app, Hp, Ht. cbn. by rewrite app_nil_r.
  - destruct Hrun as (Htrace & ->). cbn [snd].
    by rewrite Htrace, !List.filter_app, Hp, Ht.
Qed.

(** the calls of the image library in a run without failure *)
Lemma run_ok_calls wall disk s :
  run wall disk = (Ret (), s) →
  List.filter is_codec_call (trace s) = loop_calls (files s) ∧
  opened_paths (trace s) = files s ∧
  saved_paths (trace s) = dst <$> files s.
Proof.
  intros (s1 & _ & -> & Htrace & Hfiles & _)%run_ok_inv.
  cbn [finish add_line add_events trace files]. rewrite Hfiles, Htrace.
  rewrite !List.filter_app, !saved_paths_app, !opened_paths_app.
  rewrite saved_paths_prepared, opened_paths_prepared.
  rewrite saved_paths_loop_calls, opened_paths_loop_calls.
  rewrite (forallb_filter_id _ _ (loop_calls_codec _)).
  assert (List.filter is_codec_call (trace (prepared disk)) = []) as ->
    by (cbn; by destruct (Fs.exists_ _ _)).
  cbn. by rewrite !app_nil_r.
Qed.

Lemma cbf_name_ne_edf_format f stem : cbf_name f stem → f ≠ "edf_format".
Proof.
  intros (-> & _) Heq.
  pose proof (endswith_app ".cbf" stem) as Hend. by rewrite Heq in Hend.
Qed.

Lemma lookup_prepared disk k :
  k ≠ "edf_format" → fs (prepared disk) !! k = disk !! k.
Proof.
  intros Hk. unfold prepared. cbn [fs].
  destruct (Fs.exists_ _ _); [done |]. by rewrite lookup_insert_ne.
Qed.

Lemma lookup_prepared_edf_format disk :
  is_Some (fs (prepared disk) !! "edf_format").
Proof.
  unfold prepared. cbn [fs].
  destruct (Fs.exists_ _ _) eqn:Hex.
  - unfold Fs.exists_ in Hex. by apply bool_decide_eq_true in Hex.
  - rewrite lookup_insert_eq. eauto.
Qed.

Lemma no_sep_not_dst k (l : list string) :
  Forall (λ f, ∃ stem, cbf_name f stem) l →
  Str.contains "/" k = false → k ∉ dst <$> l.
Proof.
  intros Hnames Hk (g & -> & Hg)%list_elem_of_fmap.
  rewrite Forall_forall in Hnames. destruct (Hnames g Hg) as [stem Hstem].
  unfold dst in Hk. by rewrite (cbf_name_dst_has_sep _ _ Hstem) in Hk.
Qed.

(** what is on the disk after a run without failure *)
Lemma run_ok_disk wall disk s :
  run wall disk = (Ret (), s) →
  (∀ f, f ∈ files s → ∃ bytes out,
     disk !! f = Some (File bytes) ∧
     converted "edf" f (dst f) bytes = Some out ∧
     fs s !! dst f = Some (File out) ∧
     fs s !! "edf_format" = Some Dir) ∧
  (∀ k, Str.contains "/" k = false → k ≠ "edf_format" → fs s !! k = disk !! k) ∧
  is_Some (fs s !! "edf_format").
Proof.
  intros (s1 & Hloop & -> & _ & Hvars)%run_ok_inv.
  destruct Hvars as (Hfiles & _).
  destruct (foreach_ok _ _ _ (configured_prepared disk)
              (files_prepared_names disk) (files_prepared_NoDup disk) Hloop)
    as (Hout & Hdir & Hframe).
  cbn [finish add_line add_events files fs]. rewrite Hfiles.
  split; [| split].
  - intros f Hf. destruct (Hout f Hf) as (bytes & out & Hin & Hconv & Hdst).
    exists bytes, out.
    pose proof (files_prepared_names disk) as Hnames.
    rewrite Forall_forall in Hnames. destruct (Hnames f Hf) as [stem Hstem].
    rewrite lookup_prepared in Hin by by eapply cbf_name_ne_edf_format.
    repeat split; [done.. |]. apply Hdir. by intros Hnil; rewrite Hnil in Hf;
      apply not_elem_of_nil in Hf.
  - intros k Hsep Hk. rewrite Hframe.
    + by apply lookup_prepared.
    + by apply no_sep_not_dst; [apply files_prepared_names |].
  - rewrite Hframe.
    + apply lookup_prepared_edf_format.
    + by apply no_sep_not_dst; [apply files_prepared_names |].
Qed.

(** in a run without failure the outputs appear in the order of the
    list: once the files of [pre] are done their outputs are on the disk
    and those of the files still to come are as they were *)
Lemma run_ok_in_order wall disk s pre post :
  run wall disk = (Ret (), s) →
  files s = pre ++ post →
  ∃ s1, foreach pre convert_one (prepared disk) = (Ret (), s1) ∧
        (∀ f, f ∈ pre → ∃ out, fs s1 !! dst f = Some (File out)) ∧
        (∀ f, f ∈ post → fs s1 !! dst f = disk !! dst f).
Proof.
  intros Hrun Hsplit.
  destruct (run_ok_inv _ _ _ Hrun) as (s2 & Hloop & -> & _ & Hfiles & _).
  cbn [finish add_line add_events files] in Hsplit. rewrite Hfiles in Hsplit.
  rewrite Hsplit in Hloop.
  destruct (foreach_app_ok _ _ _ _ _ Hloop) as (s1 & Hpre & _).
  exists s1. split; [done |].
  pose proof (files_prepared_names disk) as Hnames.
  pose proof (files_prepared_NoDup disk) as Hnodup.
  rewrite Hsplit in Hnames, Hnodup.
  apply Forall_app in Hnames as [Hnames_pre Hnames_post].
  apply NoDup_app in Hnodup as (Hnodup_pre & Hdisj & _).
  destruct (foreach_ok _ _ _ (configured_prepared disk) Hnames_pre
              Hnodup_pre Hpre) as (Hdone & _ & Hframe).
  split.
  - intros f Hf. destruct (Hdone f Hf) as (_ & out & _ & _ & Hout). by exists out.
  - intros f Hf. rewrite Forall_forall in Hnames_post.
    destruct (Hnames_post f Hf) as [stem Hstem].
    rewrite Hframe.
    + apply lookup_prepared. intros Heq. by apply (edf_format_ne_dst _ _ Hstem).
    + intros (g & Heq & Hg)%list_elem_of_fmap.
      rewrite Forall_forall in Hnames_pre. destruct (Hnames_pre g Hg) as [sg Hsg].
      apply (cbf_name_dst_inj _ _ _ _ Hstem Hsg) in Heq. subst g.
      by apply (Hdisj f Hg).
Qed.

(** the lines printed do not depend on the wall time of the loop *)
Lemma stdout_ignores_wall wall wall' disk :
  stdout (run wall disk).2 = stdout (run wall' disk).2.
Proof.
  destruct (run_shape wall disk) as (t & _ & _ & Hrun).
  destruct (run_shape wall' disk) as (t' & _ & _ & Hrun').
  destruct (foreach _ _ _) as [[[]| e |] s']; [| | done].
  - destruct Hrun as (_ & _ & ->), Hrun' as (_ & _ & ->). done.
  - destruct Hrun as (_ & ->), Hrun' as (_ & ->). done.
Qed.

Lemma prepared_existing disk :
  Fs.exists_ disk "edf_format" = true →
  prepared disk =
  Session (merge_sort Unicode.str_le (found disk)) "edf" "edf_format" disk
    ["Number of files: " +:+ Str.of_nat (length (merge_sort Unicode.str_le (found disk)))]
    [EvGlob "*.cbf"; EvExists "edf_format"].
Proof. intros Hex. unfold prepared. by rewrite Hex. Qed.

(** the names found are the same after a run without failure *)
Lemma found_after_run wall disk s :
  run wall disk = (Ret (), s) → found (fs s) ≡ₚ found disk.
Proof.
  intros Hrun. destruct (run_ok_disk _ _ _ Hrun) as (_ & Hframe & _).
  apply NoDup_Permutation; [apply NoDup_found.. |].
  intros n. rewrite !elem_of_found.
  assert (Str.contains "/" n = false → Str.endswith ".cbf" n = true →
          fs s !! n = disk !! n) as Heq.
  { intros Hsep Hend. apply Hframe; [done |]. by intros ->. }
  split; intros (Hn & Hsep & Hhid & Hend);
    [rewrite Heq in Hn | rewrite <- Heq in Hn]; done.
Qed.

(** a failing body writes nothing, prints nothing, and has opened its file *)
Lemma convert_one_raise onefile s e s' :
  configured s →
  convert_one onefile s = (Raise e, s') →
  fs s' = fs s ∧
  ∃ t, trace s' = trace s ++ t ∧ opened_paths t = [onefile] ∧
       saved_paths t `prefix_of` [dst onefile] ∧
       forallb is_codec_call t = true.
Proof.
  intros [Hd Hf]. rewrite convert_one_eq. cbv zeta. rewrite Hd, Hf.
  unfold calls_for. fold (dst onefile).
  repeat case_match; intros [= <- <-]; (split; [done |]);
    eexists; (split; [done |]); (split; [done |]); (split; [| done]); cbn;
    (by exists [dst onefile]) || by exists [].
Qed.

End RunOk.

(** * The claims *)

Section Claims.
Context `{Codec}.

(** C8. The list of files is enumerated once, by the [glob] call that
    opens the run, and nothing changes it afterwards: the body of the loop
    leaves the variable [files] as it is, so does any number of turns, the
    loop over the live list is the visit of the list as enumerated, and at
    the end of every run, failed or not, [files] is still the sorted list
    of the names found on the initial disk. *)
Theorem file_set_fixed_once_enumerated :
  (∀ onefile s, files (convert_one onefile s).2 = files s) ∧
  (∀ l s, files (foreach l convert_one s).2 = files s) ∧
  (∀ s, for_files convert_one s = foreach (files s) convert_one s) ∧
  (∀ wall disk,
     files (run wall disk).2 = merge_sort Unicode.str_le (found disk) ∧
     List.filter is_glob_call (trace (run wall disk).2) = [EvGlob "*.cbf"] ∧
     head (trace (run wall disk).2) = Some (EvGlob "*.cbf")).
Proof.
  split; [apply convert_one_files |].
  split; [intros l s; apply foreach_vars |].
  split; [apply for_files_foreach, convert_one_files |].
  intros wall disk. split; [apply run_files |].
  destruct (run_shape wall disk) as (t & Hpre & _ & Hrun).
  assert (List.filter is_glob_call t = []) as Ht.
  { apply (filter_none _ is_codec_call); [by intros [] |].
    eapply forallb_prefix; [done | apply loop_calls_codec]. }
  assert (List.filter is_glob_call (trace (prepared disk)) = [EvGlob "*.cbf"])
    as Hp by (cbn; by destruct (Fs.exists_ _ _)).
  destruct (foreach _ _ _) as [[[]| e |] s']; [| | done].
  - destruct Hrun as (_ & Htrace & ->). cbn [snd finish add_line add_events trace].
    rewrite Htrace, !List.filter_app, Hp, Ht. done.
  - destruct Hrun as (Htrace & ->). cbn [snd].
    rewrite Htrace, !List.filter_app, Hp, Ht. done.
Qed.

(** C6, as the code has it.  Cells 1 to 3 never raise and the loop starts
    from the session they leave; the look at [edf_format] and the call of
    [makedirs], if there is one, come before every call of the image
    library.  If no entry is at [edf_format], the directory is made and
    every run calls [makedirs] exactly once.  If a directory is there, the
    disk is left as it was and no run calls [makedirs].  If a regular file
    is there, cell 3 passes all the same, without a call of [makedirs]:
    the loop then begins with no directory at [edf_format]. *)
Theorem destination_directory_ensured_unless_taken wall disk :
  prepare (fresh disk) = (Ret (), prepared disk) ∧
  run wall disk = batch wall (prepared disk) ∧
  List.filter is_codec_call (trace (prepared disk)) = [] ∧
  (∃ t, trace (run wall disk).2 = trace (prepared disk) ++ t ∧
        List.filter is_makedirs_call t = []) ∧
  match disk !! "edf_format" with
  | None =>
      fs (prepared disk) = <["edf_format" := Dir]> disk ∧
      Fs.isdir (fs (prepared disk)) "edf_format" = true ∧
      List.filter is_makedirs_call (trace (run wall disk).2) =
        [EvMakedirs "edf_format"]
  | Some Dir =>
      fs (prepared disk) = disk ∧
      Fs.isdir (fs (prepared disk)) "edf_format" = true ∧
      List.filter is_makedirs_call (trace (run wall disk).2) = []
  | Some (File _) =>
      fs (prepared disk) = disk ∧
      Fs.isdir (fs (prepared disk)) "edf_format" = false ∧
      List.filter is_makedirs_call (trace (run wall disk).2) = []
  end.
Proof.
  split; [apply prepare_fresh |]. split; [apply run_eq |].
  split; [cbn; by destruct (Fs.exists_ _ _) |].
  destruct (run_shape wall disk) as (t & Hpre & _ & Hrun).
  assert (List.filter is_makedirs_call t = []) as Ht.
  { apply (filter_none _ is_codec_call); [by intros [] |].
    eapply forallb_prefix; [done | apply loop_calls_codec]. }
  assert (∃ t', trace (run wall disk).2 = trace (prepared disk) ++ t' ∧
                List.filter is_makedirs_call t' = []) as (t' & Htrace & Ht').
  { destruct (foreach _ _ _) as [[[]| e |] s']; [| | done].
    - destruct Hrun as (_ & Htrace & ->). exists (t ++ [EvWallTime wall]).
      cbn [snd finish add_line add_events trace].
      by rewrite Htrace, List.filter_app, Ht, app_assoc.
    - destruct Hrun as (Htrace & ->). by exists t. }
  split; [by exists t' |].
  rewrite Htrace, List.filter_app, Ht', app_nil_r.
  unfold prepared, Fs.isdir, Fs.exists_. cbn [fs trace].
  destruct (disk !! "edf_format") as [[d |] |] eqn:Hd.
  - rewrite bool_decide_eq_true_2 by eauto. by rewrite Hd.
  - rewrite bool_decide_eq_true_2 by eauto. by rewrite Hd.
  - rewrite bool_decide_eq_false_2 by (by intros [? ?]).
    by rewrite lookup_insert_eq.
Qed.

(** C9. Cell 3 asks only whether something exists at [edf_format].  When
    an entry of any kind is there, a regular file included, cells 1 to 3
    end without an exception and without a call of [makedirs], the disk is
    as it was, and the run goes on into the loop: if a file was found, the
    next call is the [fabio.open] of the first one. *)
Theorem existence_check_accepts_any_entry wall disk (n : node) :
  disk !! "edf_format" = Some n →
  prepare (fresh disk) = (Ret (), prepared disk) ∧
  fs (prepared disk) = disk ∧
  trace (prepared disk) = [EvGlob "*.cbf"; EvExists "edf_format"] ∧
  run wall disk = batch wall (prepared disk) ∧
  ∀ f l, files (prepared disk) = f :: l →
    ∃ t, trace (run wall disk).2 =
         [EvGlob "*.cbf"; EvExists "edf_format"; EvOpen f] ++ t.
Proof.
  intros Hn.
  assert (Fs.exists_ disk "edf_format" = true) as Hex.
  { unfold Fs.exists_. apply bool_decide_eq_true. by rewrite Hn. }
  split; [apply prepare_fresh |].
  assert (fs (prepared disk) = disk ∧
          trace (prepared disk) = [EvGlob "*.cbf"; EvExists "edf_format"])
    as [Hfs Htrace] by (unfold prepared; cbn; by rewrite Hex).
  do 2 (split; [done |]). split; [apply run_eq |].
  intros f l Hfiles. rewrite run_eq, batch_eq, Hfiles.
  destruct (foreach_first f l (prepared disk)) as [t Ht]; [done |].
  rewrite Htrace in Ht.
  destruct (foreach _ _ _) as [[[]| e |] s']; cbn [snd] in *.
  - exists (t ++ [EvWallTime wall]).
    cbn [finish add_line add_events trace]. rewrite Ht.
    by rewrite <- !app_assoc.
  - by exists t.
  - by exists t.
Qed.

(** C10. When no name matches, the run ends without an exception: it
    prints a count of 0, makes [edf_format] if nothing was there, calls
    the image library not once, and prints a speed of 0.0. *)
Theorem run_without_files wall disk :
  found disk = [] →
  run wall disk = (Ret (), finish wall (prepared disk)) ∧
  stdout (run wall disk).2 =
    ["Number of files: 0"; "The overall speed is 0.0 frame/second"] ∧
  trace (run wall disk).2 =
    [EvGlob "*.cbf"; EvExists "edf_format"] ++
    (if Fs.exists_ disk "edf_format" then [] else [EvMakedirs "edf_format"]) ++
    [EvWallTime wall] ∧
  fs (run wall disk).2 =
    (if Fs.exists_ disk "edf_format" then disk
     else <["edf_format" := Dir]> disk) ∧
  Fs.exists_ (fs (run wall disk).2) "edf_format" = true.
Proof.
  intros Hnone.
  assert (run wall disk = (Ret (), finish wall (prepared disk))) as Hrun.
  { assert (files (prepared disk) = []) as Hfiles
      by (cbn [prepared files]; by rewrite Hnone).
    by rewrite run_eq, batch_eq, Hfiles. }
  rewrite Hrun. split; [done |].
  unfold finish, prepared.
  cbn [snd stdout trace fs files add_line add_events app].
  rewrite Hnone.
  change (merge_sort Unicode.str_le []) with (@nil string).
  split; [by vm_compute |]. split; [done |]. split; [done |].
  destruct (Fs.exists_ disk "edf_format") eqn:Hex; [done |].
  unfold Fs.exists_. apply bool_decide_eq_true. by rewrite lookup_insert_eq.
Qed.

(** C2. In every run the list that the loop walks is sorted in the order
    of Python strings and holds exactly the names found, whatever order
    the system listed them in; the calls of the image library are, up to
    the point where the run stops, open, convert and save for the first
    file, then for the second, and so on.  In a run without failure they
    are all there, so the files are opened, and the outputs saved, in
    sorted order; every output is then a regular file on the disk, and the
    outputs appeared in that order: once the first files of the list are
    done, their outputs are there and those of the later files are still
    as they were before the run. *)
Theorem files_converted_in_sorted_order wall disk :
  let s := (run wall disk).2 in
  StronglySorted Unicode.str_le (files s) ∧
  files s ≡ₚ found disk ∧
  (∀ l, l ≡ₚ found disk → merge_sort Unicode.str_le l = files s) ∧
  List.filter is_codec_call (trace s) `prefix_of` loop_calls (files s) ∧
  ((run wall disk).1 = Ret () →
   List.filter is_codec_call (trace s) = loop_calls (files s) ∧
   opened_paths (trace s) = files s ∧
   saved_paths (trace s) = dst <$> files s ∧
   (∀ f, f ∈ files s → ∃ out, fs s !! dst f = Some (File out)) ∧
   (∀ pre post, files s = pre ++ post →
      ∃ s1, foreach pre convert_one (prepared disk) = (Ret (), s1) ∧
            (∀ f, f ∈ pre → ∃ out, fs s1 !! dst f = Some (File out)) ∧
            (∀ f, f ∈ post → fs s1 !! dst f = disk !! dst f))).
Proof.
  cbv zeta. rewrite run_files. cbn [prepared files].
  split; [apply StronglySorted_merge_sort; apply _ |].
  split; [apply merge_sort_Permutation |].
  split; [intros l Hl; by apply sorted_perm_eq |].
  split; [apply run_calls_prefix |].
  pose proof (run_files wall disk) as Hfiles.
  destruct (run wall disk) as [o s] eqn:Hrun. cbn [fst snd] in *.
  intros ->. pose proof (run_ok_calls _ _ _ Hrun) as (Hcalls & Hopened & Hsaved).
  rewrite Hfiles in Hcalls, Hopened, Hsaved.
  do 3 (split; [done |]). split.
  - intros f Hf. destruct (run_ok_disk _ _ _ Hrun) as (Hout & _).
    destruct (Hout f) as (_ & out & _ & _ & Hdst & _); [by rewrite Hfiles |].
    by exists out.
  - intros pre post Hsplit. apply (run_ok_in_order wall disk s); [done |].
    by rewrite Hfiles.
Qed.

(** C3. A file of the list has a name [stem.cbf] that is its own base
    name and splits into [stem] and [.cbf]; the path written for it is the
    destination directory joined with [stem], a dot and the format, which
    for the notebook's directory and format is [edf_format/stem.edf]. *)
Theorem destination_path_of_input wall disk onefile :
  onefile ∈ files (run wall disk).2 →
  ∃ stem,
    onefile = stem +:+ ".cbf" ∧
    Path.basename onefile = onefile ∧
    Path.splitext (Path.basename onefile) = (stem, ".cbf") ∧
    (∀ d fmt, dst_name_of d fmt onefile = Path.join d (stem +:+ "." +:+ fmt)) ∧
    dst_name_of "edf_format" "edf" onefile = "edf_format/" +:+ stem +:+ ".edf".
Proof.
  rewrite run_files.
  intros Hin. pose proof (files_prepared_names disk) as Hnames.
  rewrite Forall_forall in Hnames. destruct (Hnames _ Hin) as [stem Hstem].
  exists stem. split; [apply Hstem |].
  rewrite (cbf_name_basename _ _ Hstem).
  split; [done |]. split; [by apply cbf_name_splitext |].
  split; [intros d fmt; by apply cbf_name_dst | by apply cbf_name_dst_edf].
Qed.

(** C4. After a run without failure, [save] was called once for each file
    of the list, on paths that are all different; for each file
    [stem.cbf] of the list the disk holds a regular file
    [edf_format/stem.edf], whose bytes are what the image library made of
    the input, and [edf_format] is a directory. *)
Theorem one_output_per_input wall disk s :
  run wall disk = (Ret (), s) →
  files s ≡ₚ found disk ∧
  saved_paths (trace s) = dst <$> files s ∧
  NoDup (dst <$> files s) ∧
  ∀ f, f ∈ files s → ∃ stem bytes out,
    f = stem +:+ ".cbf" ∧
    dst f = "edf_format/" +:+ stem +:+ ".edf" ∧
    disk !! f = Some (File bytes) ∧
    converted "edf" f (dst f) bytes = Some out ∧
    fs s !! dst f = Some (File out) ∧
    fs s !! "edf_format" = Some Dir.
Proof.
  intros Hrun.
  assert (files s = files (prepared disk)) as Hfiles
    by (rewrite <- (run_files wall disk); by rewrite Hrun).
  destruct (run_ok_calls _ _ _ Hrun) as (_ & _ & Hsaved).
  assert (files s ≡ₚ found disk) as Hperm
    by (rewrite Hfiles; apply merge_sort_Permutation).
  pose proof (files_prepared_names disk) as Hnames. rewrite <- Hfiles in Hnames.
  pose proof (files_prepared_NoDup disk) as Hnodup. rewrite <- Hfiles in Hnodup.
  rewrite Forall_forall in Hnames.
  do 2 (split; [done |]). split.
  - apply NoDup_fmap_2_strong; [| done].
    intros f g Hf Hg Heq.
    destruct (Hnames f Hf) as [sf Hsf], (Hnames g Hg) as [sg Hsg].
    by apply (cbf_name_dst_inj _ _ _ _ Hsf Hsg).
  - intros f Hf. destruct (Hnames f Hf) as [stem Hstem].
    destruct (run_ok_disk _ _ _ Hrun) as (Hout & _).
    destruct (Hout f Hf) as (bytes & out & ? & ? & ? & ?).
    exists stem, bytes, out. split; [apply Hstem |].
    split; [by apply cbf_name_dst_edf | done].
Qed.

(** C7. Run again on the disk that a run without failure leaves, the
    notebook ends without failure too: it finds the same files, calls
    [save] on the same paths, prints the same lines, and leaves the disk as
    it found it, every output rewritten with the bytes it already had.  The
    image library is a function here, so it gives the same answers. *)
Theorem second_run_same_outputs wall wall' disk s :
  run wall disk = (Ret (), s) →
  ∃ s', run wall' (fs s) = (Ret (), s') ∧
        fs s' = fs s ∧
        files s' = files s ∧
        saved_paths (trace s') = saved_paths (trace s) ∧
        stdout s' = stdout s.
Proof.
  intros Hrun.
  destruct (run_ok_disk _ _ _ Hrun) as (Hout & Hframe & Hdir).
  destruct (run_ok_calls _ _ _ Hrun) as (_ & _ & Hsaved).
  pose proof (found_after_run _ _ _ Hrun) as Hfound.
  destruct (run_ok_inv _ _ _ Hrun) as (s1 & _ & Hs & _ & Hfiles1 & _ & _ & Hout1).
  assert (files s = files (prepared disk)) as Hfiles
    by (rewrite Hs; cbn [finish add_line add_events files]; done).
  assert (Fs.exists_ (fs s) "edf_format" = true) as Hex
    by (unfold Fs.exists_; by apply bool_decide_eq_true).
  assert (files (prepared (fs s)) = files s) as Hfiles2.
  { rewrite Hfiles. cbn [prepared files]. by apply sorted_perm_eq. }
  pose proof (files_prepared_names (fs s)) as Hnames.
  assert (foreach (files (prepared (fs s))) convert_one (prepared (fs s)) =
          (Ret (), add_events (loop_calls (files (prepared (fs s)))) (prepared (fs s))))
    as Hloop.
  { apply foreach_again; [done | done | |].
    - intros f Hf. rewrite Hfiles2 in Hf.
      destruct (Hout f Hf) as (bytes & out & Hin & Hconv & Hdst & _).
      exists bytes, out. rewrite (prepared_existing _ Hex). cbn [fs].
      rewrite Forall_forall in Hnames. rewrite Hfiles2 in Hnames.
      destruct (Hnames f Hf) as [stem Hstem].
      rewrite Hframe; [done | |].
      + by eapply cbf_name_no_sep.
      + by eapply cbf_name_ne_edf_format.
    - rewrite Hfiles2. rewrite (prepared_existing _ Hex). cbn [fs].
      destruct (files s) as [|f l] eqn:Hl; [done |]. intros _.
      destruct (Hout f) as (_ & _ & _ & _ & _ & Hd); [left | done]. }
  eexists. split.
  { rewrite run_eq, batch_eq, Hloop. reflexivity. }
  rewrite Hfiles2.
  cbn [finish add_line add_events fs files trace stdout].
  rewrite (prepared_existing _ Hex). cbn [fs files trace stdout].
  split; [done |]. split.
  { rewrite Hfiles. cbn [prepared files]. by apply sorted_perm_eq. }
  split.
  - rewrite Hsaved, !saved_paths_app, saved_paths_loop_calls. cbn.
    by rewrite app_nil_r.
  - assert (stdout s = stdout (prepared disk) ++
                         [speed_line (length (files (prepared disk)))]) as ->.
    { rewrite Hs. cbn [finish add_line add_events stdout files].
      by rewrite Hout1, Hfiles1. }
    cbn [prepared stdout files app].
    by rewrite (sorted_perm_eq _ _ Hfound).
Qed.

(** C5. Nothing in the loop catches an exception.  If the files before
    [onefile] in the list are converted without failure and the calls for
    [onefile] raise [e], then the run ends with [e] in the session that the
    failing call left: the disk is as the files before left it, with their
    outputs on it, the files after [onefile] were never opened, and neither
    the timing report nor the line of cell 5 was produced. *)
Theorem batch_stops_at_first_failure wall disk pre onefile post e s1 s2 :
  merge_sort Unicode.str_le (found disk) = pre ++ onefile :: post →
  foreach pre convert_one (prepared disk) = (Ret (), s1) →
  convert_one onefile s1 = (Raise e, s2) →
  run wall disk = (Raise e, s2) ∧
  fs s2 = fs s1 ∧
  (∀ f, f ∈ pre → ∃ out, fs s2 !! dst f = Some (File out)) ∧
  opened_paths (trace s2) = pre ++ [onefile] ∧
  (∀ f, f ∈ post → f ∉ opened_paths (trace s2)) ∧
  saved_paths (trace s2) `prefix_of` dst <$> (pre ++ [onefile]) ∧
  stdout s2 = stdout (prepared disk) ∧
  EvWallTime wall ∉ trace s2.
Proof.
  intros Hfiles Hpre Hone.
  assert (files (prepared disk) = pre ++ onefile :: post) as Hfiles' by done.
  pose proof (files_prepared_names disk) as Hnames.
  pose proof (files_prepared_NoDup disk) as Hnodup.
  rewrite Hfiles' in Hnames, Hnodup.
  apply Forall_app in Hnames as [Hnames_pre _].
  pose proof (foreach_vars pre (prepared disk)) as Hvars1.
  rewrite Hpre in Hvars1. cbn [snd] in Hvars1.
  destruct Hvars1 as (_ & Hfmt1 & Hdir1 & Hout1).
  assert (configured s1) as Hs1 by (split; [by rewrite Hdir1 | by rewrite Hfmt1]).
  destruct (foreach_trace pre (prepared disk)) as (t & Ht & _ & Hok); [done |].
  rewrite Hpre in Ht, Hok. cbn [fst snd] in Ht, Hok. rewrite (Hok eq_refl) in Ht.
  destruct (convert_one_raise _ _ _ _ Hs1 Hone)
    as (Hfs & tf & Htf & Hopen & Hsave & Htf_codec).
  pose proof (convert_one_vars onefile s1) as Hvars2.
  rewrite Hone in Hvars2. cbn [snd] in Hvars2. destruct Hvars2 as (_ & _ & _ & Hout2).
  assert (opened_paths (trace s2) = pre ++ [onefile]) as Hopened.
  { rewrite Htf, Ht, !opened_paths_app, opened_paths_prepared.
    by rewrite opened_paths_loop_calls, Hopen. }
  split.
  { rewrite run_eq, batch_eq, Hfiles', foreach_app, Hpre, foreach_cons, Hone.
    done. }
  split; [done |]. split.
  { intros f Hf. rewrite Hfs.
    apply NoDup_app in Hnodup as (Hnodup_pre & _ & _).
    destruct (foreach_ok _ _ _ (configured_prepared disk) Hnames_pre
                Hnodup_pre Hpre) as (Hdone & _).
    destruct (Hdone f Hf) as (_ & out & _ & _ & Hdst). by exists out. }
  split; [done |]. split.
  { intros f Hf. rewrite Hopened.
    apply NoDup_app in Hnodup as (_ & Hdisj & Hnodup_post).
    apply NoDup_cons in Hnodup_post as [Hone_post _].
    intros [Hin | ->%list_elem_of_singleton]%elem_of_app; [| done].
    apply (Hdisj f Hin). by right. }
  split.
  { rewrite Htf, Ht, !saved_paths_app, saved_paths_prepared.
    rewrite saved_paths_loop_calls, fmap_app. cbn [app].
    by apply prefix_app. }
  split; [congruence |].
  rewrite Htf, Ht. intros Hin.
  apply elem_of_app in Hin as [[Hin | Hin]%elem_of_app | Hin].
  - revert Hin. cbn. destruct (Fs.exists_ _ _); intros Hin;
      repeat (apply elem_of_cons in Hin as [Hin | Hin]; [done |]);
      by apply elem_of_nil in Hin.
  - pose proof (loop_calls_codec pre) as Hall.
    rewrite forallb_forall in Hall.
    apply list_elem_of_In, Hall in Hin. done.
  - rewrite forallb_forall in Htf_codec.
    apply list_elem_of_In, Htf_codec in Hin. done.
Qed.

End Claims.

(** C6 as the claim has it fails where a regular file sits at
    [edf_format]: something exists there, so cell 3 makes nothing and
    raises nothing, the first frame is opened, and there is no directory
    at [edf_format], neither found nor made; the run ends in
    [NotADirectoryError]. *)
Lemma destination_taken_by_regular_file :
  ¬ (Fs.isdir (fs (prepared disk_taken)) "edf_format" = true) ∧
  Fs.exists_ disk_taken "edf_format" = true ∧
  @prepare toy_codec (fresh disk_taken) = (Ret (), prepared disk_taken) ∧
  List.filter is_makedirs_call
    (trace (@run toy_codec recorded_wall disk_taken).2) = [] ∧
  opened_paths (trace (@run toy_codec recorded_wall disk_taken).2) = ["a.cbf"] ∧
  (@run toy_codec recorded_wall disk_taken).1 = Raise NotADirectoryError.
Proof. split; [by vm_compute | by vm_compute]. Qed.

(** a disk with a regular file at [edf_format] and one frame: cell 3 lets
    it pass, the first frame is opened, and its [save] is what fails *)
Lemma existence_check_accepts_any_entry_witness :
  disk_taken !! "edf_format" = Some (File []) ∧
  (@prepare toy_codec (fresh disk_taken) = (Ret (), prepared disk_taken) ∧
   fs (prepared disk_taken) = disk_taken ∧
   trace (prepared disk_taken) = [EvGlob "*.cbf"; EvExists "edf_format"] ∧
   @run toy_codec recorded_wall disk_taken =
     @batch toy_codec recorded_wall (prepared disk_taken) ∧
   ∀ f l, files (prepared disk_taken) = f :: l →
     ∃ t, trace (@run toy_codec recorded_wall disk_taken).2 =
          [EvGlob "*.cbf"; EvExists "edf_format"; EvOpen f] ++ t).
Proof.
  split; [reflexivity |].
  apply (@existence_check_accepts_any_entry toy_codec _ _ (File [])).
  reflexivity.
Defined.

Example taken_destination_fails_at_save :
  (@run toy_codec recorded_wall disk_taken).1 = Raise NotADirectoryError ∧
  trace (@run toy_codec recorded_wall disk_taken).2 =
    [EvGlob "*.cbf"; EvExists "edf_format"; EvOpen "a.cbf"; EvConvert "edf";
     EvSave "edf_format/a.edf"].
Proof. by vm_compute. Qed.

Lemma run_without_files_witness :
  found disk_empty = [] ∧
  (@run toy_codec recorded_wall disk_empty =
     (Ret (), finish recorded_wall (prepared disk_empty)) ∧
   stdout (@run toy_codec recorded_wall disk_empty).2 =
     ["Number of files: 0"; "The overall speed is 0.0 frame/second"] ∧
   trace (@run toy_codec recorded_wall disk_empty).2 =
     [EvGlob "*.cbf"; EvExists "edf_format"] ++
     (if Fs.exists_ disk_empty "edf_format" then []
      else [EvMakedirs "edf_format"]) ++
     [EvWallTime recorded_wall] ∧
   fs (@run toy_codec recorded_wall disk_empty).2 =
     (if Fs.exists_ disk_empty "edf_format" then disk_empty
      else <["edf_format" := Dir]> disk_empty) ∧
   Fs.exists_ (fs (@run toy_codec recorded_wall disk_empty).2) "edf_format" = true).
Proof.
  split; [reflexivity |].
  apply (@run_without_files toy_codec). reflexivity.
Defined.

(** the scenario of the three frames: whatever order the system lists
    [c.cbf], [a.cbf] and [b.cbf] in, they are converted as [a], [b], [c],
    and the three outputs are on the disk *)
Lemma abc_converted_in_order :
  let s := (@run toy_codec recorded_wall disk_abc).2 in
  files s = ["a.cbf"; "b.cbf"; "c.cbf"] ∧
  List.filter is_codec_call (trace s) =
    [EvOpen "a.cbf"; EvConvert "edf"; EvSave "edf_format/a.edf";
     EvOpen "b.cbf"; EvConvert "edf"; EvSave "edf_format/b.edf";
     EvOpen "c.cbf"; EvConvert "edf"; EvSave "edf_format/c.edf"] ∧
  saved_paths (trace s) =
    ["edf_format/a.edf"; "edf_format/b.edf"; "edf_format/c.edf"] ∧
  (∀ f, f ∈ files s → ∃ out, fs s !! dst f = Some (File out)).
Proof.
  cbv zeta.
  destruct (@files_converted_in_sorted_order toy_codec recorded_wall disk_abc)
    as (_ & _ & _ & _ & Hok).
  destruct (Hok eq_refl) as (Hcalls & _ & Hsaved & Hout & _).
  assert (files (@run toy_codec recorded_wall disk_abc).2 =
          ["a.cbf"; "b.cbf"; "c.cbf"]) as Hfiles by reflexivity.
  split; [exact Hfiles |]. split; [| split; [| exact Hout]].
  - rewrite Hcalls, Hfiles. reflexivity.
  - rewrite Hsaved, Hfiles. reflexivity.
Defined.

(** after [a.cbf] alone, its output is there and the two others are not *)
Example abc_outputs_appear_in_order :
  let s1 := (foreach ["a.cbf"] (@convert_one toy_codec) (prepared disk_abc)).2 in
  fs s1 !! "edf_format/a.edf" = Some (File [Byte.x45; Byte.x01]) ∧
  fs s1 !! "edf_format/b.edf" = None ∧
  fs s1 !! "edf_format/c.edf" = None.
Proof. by vm_compute. Qed.

(** names that are not UTF-8: the escaped byte [FF] comes before U+E000,
    though [EE] is the smaller byte *)
Example escaped_names_in_python_order :
  files (@run toy_codec recorded_wall disk_escaped).2 = [name_ff; name_ee8080] ∧
  opened_paths (trace (@run toy_codec recorded_wall disk_escaped).2) =
    [name_ff; name_ee8080] ∧
  Unicode.fsdecode name_ff = [0xDCFF; 0x2E; 0x63; 0x62; 0x66]%N ∧
  Unicode.fsdecode name_ee8080 = [0xE000; 0x2E; 0x63; 0x62; 0x66]%N.
Proof. by vm_compute. Qed.

Lemma destination_path_of_input_witness :
  "a.cbf" ∈ files (@run toy_codec recorded_wall disk_abc).2 ∧
  ∃ stem,
    "a.cbf" = stem +:+ ".cbf" ∧
    Path.basename "a.cbf" = "a.cbf" ∧
    Path.splitext (Path.basename "a.cbf") = (stem, ".cbf") ∧
    (∀ d fmt, dst_name_of d fmt "a.cbf" = Path.join d (stem +:+ "." +:+ fmt)) ∧
    dst_name_of "edf_format" "edf" "a.cbf" = "edf_format/" +:+ stem +:+ ".edf".
Proof.
  assert ("a.cbf" ∈ files (@run toy_codec recorded_wall disk_abc).2) as Hin
    by (vm_compute; constructor).
  split; [exact Hin |].
  exact (@destination_path_of_input toy_codec recorded_wall disk_abc "a.cbf" Hin).
Defined.

Lemma one_output_per_input_witness :
  @run toy_codec recorded_wall disk_abc =
    (Ret (), (@run toy_codec recorded_wall disk_abc).2) ∧
  let s := (@run toy_codec recorded_wall disk_abc).2 in
  files s ≡ₚ found disk_abc ∧
  saved_paths (trace s) = dst <$> files s ∧
  NoDup (dst <$> files s) ∧
  ∀ f, f ∈ files s → ∃ stem bytes out,
    f = stem +:+ ".cbf" ∧
    dst f = "edf_format/" +:+ stem +:+ ".edf" ∧
    disk_abc !! f = Some (File bytes) ∧
    @converted toy_codec "edf" f (dst f) bytes = Some out ∧
    fs s !! dst f = Some (File out) ∧
    fs s !! "edf_format" = Some Dir.
Proof.
  assert (@run toy_codec recorded_wall disk_abc =
            (Ret (), (@run toy_codec recorded_wall disk_abc).2)) as Hrun
    by (vm_compute; reflexivity).
  split; [exact Hrun |].
  exact (@one_output_per_input toy_codec recorded_wall disk_abc _ Hrun).
Defined.

Example abc_outputs_on_disk :
  let s := (@run toy_codec recorded_wall disk_abc).2 in
  fs s !! "edf_format" = Some Dir ∧
  fs s !! "edf_format/a.edf" = Some (File [Byte.x45; Byte.x01]) ∧
  fs s !! "edf_format/b.edf" = Some (File [Byte.x45; Byte.x02]) ∧
  fs s !! "edf_format/c.edf" = Some (File [Byte.x45; Byte.x03]) ∧
  size (fs s) = 7.
Proof. by vm_compute. Qed.

Lemma second_run_same_outputs_witness :
  @run toy_codec recorded_wall disk_abc =
    (Ret (), (@run toy_codec recorded_wall disk_abc).2) ∧
  ∃ s', @run toy_codec recorded_wall (fs (@run toy_codec recorded_wall disk_abc).2) =
          (Ret (), s') ∧
        fs s' = fs (@run toy_codec recorded_wall disk_abc).2 ∧
        files s' = files (@run toy_codec recorded_wall disk_abc).2 ∧
        saved_paths (trace s') =
          saved_paths (trace (@run toy_codec recorded_wall disk_abc).2) ∧
        stdout s' = stdout (@run toy_codec recorded_wall disk_abc).2.
Proof.
  assert (@run toy_codec recorded_wall disk_abc =
            (Ret (), (@run toy_codec recorded_wall disk_abc).2)) as Hrun
    by (vm_compute; reflexivity).
  split; [exact Hrun |].
  exact (@second_run_same_outputs toy_codec recorded_wall recorded_wall
           disk_abc _ Hrun).
Defined.

(** the scenario of the corrupt [b.cbf]: [a.cbf] is converted, [b.cbf]
    fails to decode, [c.cbf] is never opened *)
Lemma batch_stops_at_first_failure_witness :
  let s1 := (foreach ["a.cbf"] (@convert_one toy_codec) (prepared disk_corrupt_b)).2 in
  let s2 := (@convert_one toy_codec "b.cbf" s1).2 in
  (merge_sort Unicode.str_le (found disk_corrupt_b) = ["a.cbf"] ++ "b.cbf" :: ["c.cbf"] ∧
   foreach ["a.cbf"] (@convert_one toy_codec) (prepared disk_corrupt_b) = (Ret (), s1) ∧
   @convert_one toy_codec "b.cbf" s1 = (Raise FabioError, s2)) ∧
  (@run toy_codec recorded_wall disk_corrupt_b = (Raise FabioError, s2) ∧
   fs s2 = fs s1 ∧
   (∀ f, f ∈ ["a.cbf"] → ∃ out, fs s2 !! dst f = Some (File out)) ∧
   opened_paths (trace s2) = ["a.cbf"] ++ ["b.cbf"] ∧
   (∀ f, f ∈ ["c.cbf"] → f ∉ opened_paths (trace s2)) ∧
   saved_paths (trace s2) `prefix_of` dst <$> (["a.cbf"] ++ ["b.cbf"]) ∧
   stdout s2 = stdout (prepared disk_corrupt_b) ∧
   EvWallTime recorded_wall ∉ trace s2).
Proof.
  cbv zeta.
  assert (merge_sort Unicode.str_le (found disk_corrupt_b) =
            ["a.cbf"] ++ "b.cbf" :: ["c.cbf"]) as Hfiles
    by (vm_compute; reflexivity).
  assert (foreach ["a.cbf"] (@convert_one toy_codec) (prepared disk_corrupt_b) =
            (Ret (), (foreach ["a.cbf"] (@convert_one toy_codec)
                        (prepared disk_corrupt_b)).2)) as Hpre
    by (vm_compute; reflexivity).
  assert (@convert_one toy_codec "b.cbf"
            (foreach ["a.cbf"] (@convert_one toy_codec) (prepared disk_corrupt_b)).2 =
          (Raise FabioError,
           (@convert_one toy_codec "b.cbf"
              (foreach ["a.cbf"] (@convert_one toy_codec)
                 (prepared disk_corrupt_b)).2).2)) as Hone
    by (vm_compute; reflexivity).
  split; [by repeat split |].
  exact (@batch_stops_at_first_failure toy_codec recorded_wall disk_corrupt_b
           _ _ _ _ _ _ Hfiles Hpre Hone).
Defined.

Example corrupt_b_run :
  let s := (@run toy_codec recorded_wall disk_corrupt_b).2 in
  (@run toy_codec recorded_wall disk_corrupt_b).1 = Raise FabioError ∧
  trace s =
    [EvGlob "*.cbf"; EvExists "edf_format"; EvMakedirs "edf_format";
     EvOpen "a.cbf"; EvConvert "edf"; EvSave "edf_format/a.edf";
     EvOpen "b.cbf"] ∧
  stdout s = ["Number of files: 3"] ∧
  fs s !! "edf_format/a.edf" = Some (File [Byte.x45; Byte.x01]) ∧
  fs s !! "edf_format/b.edf" = None ∧
  fs s !! "edf_format/c.edf" = None.
Proof. by vm_compute. Qed.

(** C1. The speed that cell 5 prints is the number of files divided by
    the literal 5.64, not by the wall time of the loop: the printed lines
    are the same whatever time the loop took, and on eighteen frames
    converted in 1.06 s, the run whose output the notebook records, the
    line reads 3.2 frame/second where eighteen frames in 1.06 s make
    17.0. The line is printed after the loop has ended: the timing report
    is the last call of the run. *)
Theorem speed_divides_by_literal_not_wall_time :
  (∀ (C : Codec) wall wall' disk,
     stdout (@run C wall disk).2 = stdout (@run C wall' disk).2) ∧
  let s := (@run toy_codec recorded_wall disk_18).2 in
  (@run toy_codec recorded_wall disk_18).1 = Ret () ∧
  length (files s) = 18 ∧
  last (trace s) = Some (EvWallTime recorded_wall) ∧
  stdout s = ["Number of files: 18"; "The overall speed is 3.2 frame/second"] ∧
  Fmt.format_1f (PrimFloat.div (Fmt.float_of_nat 18) recorded_wall) = "17.0".
Proof.
  split; [intros C wall wall' disk; apply stdout_ignores_wall |].
  by vm_compute.
Qed.

(** * Further properties of the run *)

(** ** Every run, failed or not *)

Section AnyRun.
Context `{Codec}.

Lemma convert_one_no_diverge f s : (convert_one f s).1 ≠ Diverge.
Proof. rewrite convert_one_eq. cbv zeta. repeat case_match; done. Qed.

(** a loop that raises: the files before the failing one were converted *)
Lemma foreach_raise_inv (body : string → M unit) l : ∀ s e s',
  foreach l body s = (Raise e, s') →
  ∃ pre f post s1,
    l = pre ++ f :: post ∧
    foreach pre body s = (Ret (), s1) ∧
    body f s1 = (Raise e, s').
Proof.
  induction l as [|x l IH]; intros s e s' Hrun; [done |].
  rewrite foreach_cons in Hrun.
  destruct (body x s) as [[[]| e' |] s1] eqn:Hone; [| | done].
  - destruct (IH _ _ _ Hrun) as (pre & f & post & s2 & -> & Hpre & Hf).
    exists (x :: pre), f, post, s2. split; [done |].
    split; [| done]. by rewrite foreach_cons, Hone.
  - injection Hrun as <- <-. by exists [], x, l, s.
Qed.

Lemma run_raises_nothing_else wall disk : (run wall disk).1 ≠ Diverge.
Proof.
  rewrite run_eq, batch_eq.
  pose proof (foreach_no_diverge (files (prepared disk)) (prepared disk)).
  by destruct (foreach _ _ _) as [[[]| e |] s'].
Qed.

Lemma run_raise_inv wall disk e s :
  run wall disk = (Raise e, s) →
  ∃ pre f post s1,
    files (prepared disk) = pre ++ f :: post ∧
    foreach pre convert_one (prepared disk) = (Ret (), s1) ∧
    convert_one f s1 = (Raise e, s).
Proof.
  rewrite run_eq, batch_eq.
  destruct (foreach _ _ _) as [[[]| e' |] s'] eqn:Hloop; [done | | done].
  intros [= <- <-]. by apply foreach_raise_inv.
Qed.

(** the disk at the end of a run is the disk at the end of its loop *)
Lemma run_fs wall disk :
  fs (run wall disk).2 =
  fs (foreach (files (prepared disk)) convert_one (prepared disk)).2.
Proof.
  rewrite run_eq, batch_eq.
  by destruct (foreach _ _ _) as [[[]| e |] s'].
Qed.

(** a loop, failed or not, writes at destination paths only *)
Lemma foreach_frame l : ∀ s k,
  configured s →
  Forall (λ f, ∃ stem, cbf_name f stem) l →
  k ∉ dst <$> l →
  fs (foreach l convert_one s).2 !! k = fs s !! k.
Proof.
  induction l as [|x l IH]; intros s k Hs Hnames Hk; [done |].
  apply Forall_cons in Hnames as [[stem Hx] Hnames].
  rewrite fmap_cons, not_elem_of_cons in Hk. destruct Hk as [Hkx Hkl].
  rewrite foreach_cons.
  destruct (convert_one x s) as [[[]| e |] s1] eqn:Hone.
  - destruct (convert_one_ok _ _ _ _ Hs Hx Hone) as (bytes & out & _ & _ & _ & ->).
    rewrite IH; [| done..].
    cbn [fs converted_session set_fs add_events]. fold (dst x).
    by rewrite lookup_insert_ne.
  - destruct (convert_one_raise _ _ _ _ Hs Hone) as [Hfs _].
    cbn [snd]. by rewrite Hfs.
  - pose proof (convert_one_no_diverge x s) as Hnd. by rewrite Hone in Hnd.
Qed.

Lemma run_frame wall disk k :
  k ≠ "edf_format" →
  k ∉ dst <$> files (prepared disk) →
  fs (run wall disk).2 !! k = disk !! k.
Proof.
  intros Hk Hdst. rewrite run_fs, foreach_frame; [| done | | done].
  - by apply lookup_prepared.
  - apply files_prepared_names.
Qed.

Lemma run_edf_format wall disk :
  fs (run wall disk).2 !! "edf_format" =
  match disk !! "edf_format" with
  | Some x => Some x
  | None => Some Dir
  end.
Proof.
  rewrite run_fs, foreach_frame; [| done | apply files_prepared_names |].
  - unfold prepared, Fs.exists_. cbn [fs].
    destruct (disk !! "edf_format") as [x |] eqn:Hd.
    + rewrite bool_decide_eq_true_2 by eauto. done.
    + rewrite bool_decide_eq_false_2 by (by intros [? ?]).
      by rewrite lookup_insert_eq.
  - by apply no_sep_not_dst; [apply files_prepared_names |].
Qed.

Lemma elem_of_files_prepared disk f :
  f ∈ files (prepared disk) ↔ f ∈ found disk.
Proof. cbn [prepared files]. by rewrite merge_sort_Permutation. Qed.

Lemma omap_prefix {A B} (g : A → option B) (t l : list A) :
  t `prefix_of` l → omap g t `prefix_of` omap g l.
Proof. intros [k ->]. rewrite omap_app. by eexists. Qed.

(** the files opened and the paths saved in a run are those of the calls
    its loop made *)
Lemma run_loop_trace wall disk :
  ∃ t, t `prefix_of` loop_calls (files (prepared disk)) ∧
       opened_paths (trace (run wall disk).2) = opened_paths t ∧
       saved_paths (trace (run wall disk).2) = saved_paths t.
Proof.
  destruct (run_shape wall disk) as (t & Hpre & _ & Hrun).
  exists t. split; [done |].
  destruct (foreach _ _ _) as [[[]| e |] s']; [| | done].
  - destruct Hrun as (_ & Htrace & ->).
    cbn [snd finish add_line add_events trace].
    rewrite Htrace, !opened_paths_app, !saved_paths_app.
    rewrite opened_paths_prepared, saved_paths_prepared.
    cbn. by rewrite !app_nil_r.
  - destruct Hrun as (Htrace & ->). cbn [snd].
    rewrite Htrace, !opened_paths_app, !saved_paths_app.
    by rewrite opened_paths_prepared, saved_paths_prepared.
Qed.

Lemma run_opened_prefix wall disk :
  opened_paths (trace (run wall disk).2) `prefix_of` files (prepared disk).
Proof.
  destruct (run_loop_trace wall disk) as (t & Hpre & -> & _).
  apply (omap_prefix (λ e, match e with EvOpen p => Some p | _ => None end))
    in Hpre.
  fold (opened_paths t) in Hpre.
  fold (opened_paths (loop_calls (files (prepared disk)))) in Hpre.
  by rewrite opened_paths_loop_calls in Hpre.
Qed.

Lemma run_opens_found wall disk p :
  p ∈ opened_paths (trace (run wall disk).2) → p ∈ found disk.
Proof.
  intros Hp. destruct (run_opened_prefix wall disk) as [k Hk].
  apply elem_of_files_prepared. rewrite Hk. apply elem_of_app. by left.
Qed.

(** why the calls for one file raise *)
Lemma convert_one_raise_cause f stem s e s' :
  configured s → cbf_name f stem →
  convert_one f s = (Raise e, s') →
  (e = FileNotFoundError ∧ fs s !! f = None) ∨
  (e = IsADirectoryError ∧ fs s !! f = Some Dir) ∨
  ∃ bytes, fs s !! f = Some (File bytes) ∧
    ((e = FabioError ∧ converted "edf" f (dst f) bytes = None) ∨
     (e = IsADirectoryError ∧ fs s !! dst f = Some Dir) ∨
     (e = NotADirectoryError ∧ ∃ d, fs s !! "edf_format" = Some (File d)) ∨
     (e = FileNotFoundError ∧ fs s !! "edf_format" = None)).
Proof.
  intros [Hd Hfmt] Hf. rewrite convert_one_eq. cbv zeta.
  rewrite Hd, Hfmt. fold (dst f). unfold Fs.read, converted.
  destruct (fs s !! f) as [[bytes |] |];
    [| intros [= <- _]; right; by left | intros [= <- _]; by left].
  destruct (decode f bytes) as [img |] eqn:Hdec;
    [| intros [= <- _]; right; right; exists bytes; rewrite Hdec;
       split; [done | by left]].
  destruct (convert img "edf") as [img' |] eqn:Hconv;
    [| intros [= <- _]; right; right; exists bytes; rewrite Hdec; cbn;
       rewrite Hconv; split; [done | by left]].
  destruct (encode img' (dst f)) as [out |] eqn:Henc;
    [| intros [= <- _]; right; right; exists bytes; rewrite Hdec; cbn;
       rewrite Hconv; cbn; rewrite Henc; split; [done | by left]].
  rewrite (write_dst _ _ _ _ Hf).
  destruct (fs s !! dst f) as [[d |] |] eqn:Hdst;
    destruct (fs s !! "edf_format") as [[d' |] |] eqn:Hdir;
    intros [= <- _]; right; right; exists bytes; (split; [done |]); eauto 10.
Qed.

(** the calls for one file end the same way, and leave the same disk,
    in two sessions that agree on the configuration and on the disk *)
Lemma convert_one_fs_ext f s t :
  dest_dir s = dest_dir t → dest_format s = dest_format t → fs s = fs t →
  (convert_one f s).1 = (convert_one f t).1 ∧
  fs (convert_one f s).2 = fs (convert_one f t).2.
Proof.
  intros Hd Hfmt Hfs. rewrite !convert_one_eq. cbv zeta.
  rewrite Hd, Hfmt, Hfs.
  destruct (Fs.read _ _) as [e | bytes]; [done |].
  destruct (decode _ _) as [img |]; [| done].
  destruct (convert _ _) as [img' |]; [| done].
  destruct (encode _ _) as [out |]; [| done].
  by destruct (Fs.write _ _ _) as [e | m].
Qed.

(** the files opened when the calls for [f] raise after those for [pre]
    succeeded *)
Lemma raise_opened_paths disk pre f s1 e s :
  configured s1 →
  trace s1 = trace (prepared disk) ++ loop_calls pre →
  convert_one f s1 = (Raise e, s) →
  opened_paths (trace s) = pre ++ [f].
Proof.
  intros Hs1 Ht Hone.
  destruct (convert_one_raise _ _ _ _ Hs1 Hone) as (_ & tf & -> & Hopen & _).
  rewrite Ht, !opened_paths_app, opened_paths_prepared.
  by rewrite opened_paths_loop_calls, Hopen.
Qed.

(** the session after the files before the failing one *)
Lemma foreach_ok_session disk pre s1 :
  foreach pre convert_one (prepared disk) = (Ret (), s1) →
  configured s1 ∧
  trace s1 = trace (prepared disk) ++ loop_calls pre ∧
  same_vars (prepared disk) s1.
Proof.
  intros Hloop. pose proof (foreach_vars pre (prepared disk)) as Hvars.
  rewrite Hloop in Hvars. cbn [snd] in Hvars.
  destruct (foreach_trace pre (prepared disk)) as (t & Ht & _ & Hok); [done |].
  rewrite Hloop in Ht, Hok. cbn [fst snd] in Ht, Hok.
  rewrite (Hok eq_refl) in Ht.
  destruct Hvars as (? & Hfmt & Hdir & ?).
  split; [split; [by rewrite Hdir | by rewrite Hfmt] | done].
Qed.

(** the names found are the same after any run *)
Lemma found_after_any_run wall disk :
  found (fs (run wall disk).2) ≡ₚ found disk.
Proof.
  apply NoDup_Permutation; [apply NoDup_found.. |].
  intros n. rewrite !elem_of_found.
  assert (Str.contains "/" n = false → Str.endswith ".cbf" n = true →
          fs (run wall disk).2 !! n = disk !! n) as Heq.
  { intros Hsep Hend. apply run_frame; [by intros -> |].
    by apply no_sep_not_dst; [apply files_prepared_names |]. }
  split; intros (Hn & Hsep & Hhid & Hend);
    [rewrite Heq in Hn | rewrite <- Heq in Hn]; done.
Qed.

(** a directory stays a directory *)
Lemma convert_one_keeps_dir f stem s k :
  configured s → cbf_name f stem →
  fs s !! k = Some Dir → fs (convert_one f s).2 !! k = Some Dir.
Proof.
  intros Hs Hf Hk.
  destruct (convert_one f s) as [[[]| e |] s1] eqn:Hone; cbn [snd].
  - pose proof Hone as Hone'. revert Hone'.
    destruct Hs as [Hd Hfmt]. rewrite convert_one_eq. cbv zeta.
    rewrite Hd, Hfmt. fold (dst f).
    destruct (Fs.read _ _) as [e | bytes]; [done |].
    destruct (decode _ _) as [img |]; [| done].
    destruct (convert _ _) as [img' |]; [| done].
    destruct (encode _ _) as [out |]; [| done].
    rewrite (write_dst _ _ _ _ Hf).
    destruct (fs s !! dst f) as [[d |] |] eqn:Hdst;
      destruct (fs s !! "edf_format") as [[d' |] |]; intros [= <-];
      cbn [fs set_fs add_events];
      (rewrite lookup_insert_ne; [done | congruence]).
  - destruct (convert_one_raise _ _ _ _ Hs Hone) as [-> _]. done.
  - pose proof (convert_one_no_diverge f s) as Hnd. by rewrite Hone in Hnd.
Qed.

Lemma foreach_keeps_dir l : ∀ s k,
  configured s →
  Forall (λ f, ∃ stem, cbf_name f stem) l →
  fs s !! k = Some Dir → fs (foreach l convert_one s).2 !! k = Some Dir.
Proof.
  induction l as [|x l IH]; intros s k Hs Hnames Hk; [done |].
  apply Forall_cons in Hnames as [[stem Hx] Hnames].
  rewrite foreach_cons.
  pose proof (convert_one_keeps_dir _ _ _ _ Hs Hx Hk) as Hk1.
  pose proof (convert_one_vars x s) as (_ & Hfmt & Hdir & _).
  destruct (convert_one x s) as [[[]| e |] s1]; cbn [snd] in *; [| done..].
  apply IH; [| done..]. destruct Hs. split; congruence.
Qed.

Lemma run_keeps_dir wall disk k :
  disk !! k = Some Dir → fs (run wall disk).2 !! k = Some Dir.
Proof.
  intros Hk. rewrite run_fs.
  apply foreach_keeps_dir; [done | apply files_prepared_names |].
  unfold prepared. cbn [fs].
  destruct (Fs.exists_ disk "edf_format") eqn:Hex; [done |].
  rewrite lookup_insert_ne; [done |]. intros <-.
  unfold Fs.exists_ in Hex. apply bool_decide_eq_false in Hex.
  apply Hex. by rewrite Hk.
Qed.

End AnyRun.

Section Extras.
Context `{Codec}.

(** X1. A run, failed or not, changes the disk at most at [edf_format]
    and at the destination paths of the files it found.  Every other path
    has what it had: the input files, whatever else lies in the current
    directory, and what was already in [edf_format] under another name.
    A directory, wherever it is, stays a directory.  At [edf_format] an
    entry that was there stays, and a directory appears if nothing was. *)
Theorem run_changes_only_destination wall disk :
  (∀ k, k ≠ "edf_format" → k ∉ dst <$> files (run wall disk).2 →
        fs (run wall disk).2 !! k = disk !! k) ∧
  (∀ n, Str.contains "/" n = false → n ≠ "edf_format" →
        fs (run wall disk).2 !! n = disk !! n) ∧
  (∀ f, f ∈ found disk → fs (run wall disk).2 !! f = disk !! f) ∧
  (∀ k, disk !! k = Some Dir → fs (run wall disk).2 !! k = Some Dir) ∧
  fs (run wall disk).2 !! "edf_format" =
    match disk !! "edf_format" with
    | Some x => Some x
    | None => Some Dir
    end.
Proof.
  rewrite run_files.
  assert (∀ n, Str.contains "/" n = false → n ≠ "edf_format" →
               fs (run wall disk).2 !! n = disk !! n) as Hcwd.
  { intros n Hsep Hn. apply run_frame; [done |].
    by apply no_sep_not_dst; [apply files_prepared_names |]. }
  split; [intros k Hk Hdst; by apply run_frame |].
  split; [done |]. split; [| split; [apply run_keeps_dir | apply run_edf_format]].
  intros f [stem Hf]%found_cbf_name. apply Hcwd.
  - by eapply cbf_name_no_sep.
  - by eapply cbf_name_ne_edf_format.
Qed.

(** X2. The files a run opens are the first files of the sorted list, each
    opened once, and every one of them is an entry of the current
    directory whose name ends in [.cbf] and does not start with a dot:
    hidden files, files of other extensions and files in subdirectories
    are never opened. *)
Theorem run_opens_only_found wall disk :
  opened_paths (trace (run wall disk).2) `prefix_of` files (run wall disk).2 ∧
  NoDup (opened_paths (trace (run wall disk).2)) ∧
  ∀ p, p ∈ opened_paths (trace (run wall disk).2) →
    is_Some (disk !! p) ∧
    Str.contains "/" p = false ∧
    Glob.ishidden p = false ∧
    Str.endswith ".cbf" p = true.
Proof.
  rewrite run_files.
  pose proof (run_opened_prefix wall disk) as Hpre.
  split; [done |]. split.
  - destruct Hpre as [k Hk].
    pose proof (files_prepared_NoDup disk) as Hnodup.
    rewrite Hk in Hnodup. by apply NoDup_app in Hnodup as [? _].
  - intros p Hp. by apply elem_of_found, (run_opens_found wall).
Qed.

(** X3. Every path a run saves to is [edf_format/stem.edf] for a file
    [stem.cbf] it found, and is the destination of a file it opened
    before; at most one opened file, the one whose calls failed, has no
    save. *)
Theorem run_saves_only_destinations wall disk :
  saved_paths (trace (run wall disk).2)
    `prefix_of` dst <$> opened_paths (trace (run wall disk).2) ∧
  length (opened_paths (trace (run wall disk).2))
    ≤ S (length (saved_paths (trace (run wall disk).2))) ∧
  ∀ p, p ∈ saved_paths (trace (run wall disk).2) →
    ∃ stem, p = "edf_format/" +:+ stem +:+ ".edf" ∧
            stem +:+ ".cbf" ∈ found disk.
Proof.
  assert (saved_paths (trace (run wall disk).2)
            `prefix_of` dst <$> opened_paths (trace (run wall disk).2) ∧
          length (opened_paths (trace (run wall disk).2))
            ≤ S (length (saved_paths (trace (run wall disk).2)))) as [Hpre Hlen].
  { destruct (run wall disk) as [[[]| e |] s] eqn:Hrun; cbn [snd].
    - destruct (run_ok_calls _ _ _ Hrun) as (_ & -> & ->).
      split; [done |]. rewrite length_fmap. lia.
    - destruct (run_raise_inv _ _ _ _ Hrun) as (pre & f & post & s1 & _ & Hloop & Hone).
      pose proof (foreach_vars pre (prepared disk)) as Hvars.
      rewrite Hloop in Hvars. cbn [snd] in Hvars.
      destruct Hvars as (_ & Hfmt & Hdir & _).
      assert (configured s1) as Hs1
        by (split; [by rewrite Hdir | by rewrite Hfmt]).
      destruct (foreach_trace pre (prepared disk)) as (t & Ht & _ & Hok); [done |].
      rewrite Hloop in Ht, Hok. cbn [fst snd] in Ht, Hok.
      rewrite (Hok eq_refl) in Ht.
      destruct (convert_one_raise _ _ _ _ Hs1 Hone) as (_ & tf & Htf & Hopen & Hsave & _).
      rewrite Htf, Ht, !opened_paths_app, !saved_paths_app.
      rewrite opened_paths_prepared, saved_paths_prepared.
      rewrite opened_paths_loop_calls, saved_paths_loop_calls, Hopen.
      cbn [app]. rewrite fmap_app. split; [by apply prefix_app |].
      rewrite !length_app, !length_fmap. cbn. lia.
    - pose proof (run_shape wall disk) as (t & _ & _ & Hshape).
      revert Hshape. rewrite run_eq, batch_eq in Hrun.
      by destruct (foreach _ _ _) as [[[]| e |] s']. }
  split; [done |]. split; [done |].
  intros p Hp. destruct Hpre as [k Hk].
  assert (p ∈ dst <$> opened_paths (trace (run wall disk).2)) as Hin
    by (rewrite Hk; apply elem_of_app; by left).
  apply list_elem_of_fmap in Hin as (f & -> & Hf).
  apply run_opens_found in Hf.
  destruct (found_cbf_name _ _ Hf) as [stem Hstem].
  exists stem. split; [by apply cbf_name_dst_edf |].
  destruct Hstem as (<- & _). done.
Qed.

(** X5. With a regular file at [edf_format] and at least one file found,
    the run opens the first file of the sorted list and raises on it, at
    the latest when [save] finds that [edf_format] is not a directory; it
    opens no other file, prints no speed and leaves the disk exactly as it
    was. *)
Theorem regular_file_at_destination_blocks_batch wall disk d :
  disk !! "edf_format" = Some (File d) →
  found disk ≠ [] →
  ∃ e f,
    head (files (run wall disk).2) = Some f ∧
    (run wall disk).1 = Raise e ∧
    e ≠ FileNotFoundError ∧
    opened_paths (trace (run wall disk).2) = [f] ∧
    stdout (run wall disk).2 = [count_line (length (files (run wall disk).2))] ∧
    fs (run wall disk).2 = disk.
Proof.
  intros Hd Hfound.
  assert (Fs.exists_ disk "edf_format" = true) as Hex.
  { unfold Fs.exists_. apply bool_decide_eq_true. by rewrite Hd. }
  rewrite run_files.
  destruct (files (prepared disk)) as [|f l] eqn:Hfiles.
  { exfalso. apply Hfound. apply Permutation_nil_r.
    rewrite <- (merge_sort_Permutation Unicode.str_le).
    change (merge_sort Unicode.str_le (found disk)) with (files (prepared disk)).
    by rewrite Hfiles. }
  pose proof (files_prepared_names disk) as Hnames. rewrite Hfiles in Hnames.
  apply Forall_cons in Hnames as [[stem Hf] _].
  assert (run wall disk = convert_one f (prepared disk) ∧
          ∃ e, (convert_one f (prepared disk)).1 = Raise e) as [Hrun [e He]].
  { rewrite run_eq, batch_eq, Hfiles, foreach_cons.
    destruct (convert_one f (prepared disk)) as [[[]| e |] s1] eqn:Hone.
    - destruct (convert_one_ok _ _ _ _ (configured_prepared disk) Hf Hone)
        as (_ & _ & _ & _ & Hdir & _).
      rewrite (prepared_existing _ Hex) in Hdir. cbn [fs] in Hdir. congruence.
    - eauto.
    - pose proof (convert_one_no_diverge f (prepared disk)) as Hnd.
      by rewrite Hone in Hnd. }
  rewrite Hrun. destruct (convert_one f (prepared disk)) as [o s1] eqn:Hone.
  cbn [fst snd] in *. subst o.
  exists e, f.
  destruct (convert_one_raise _ _ _ _ (configured_prepared disk) Hone)
    as (Hfs & tf & Htf & Hopen & _).
  pose proof (convert_one_vars f (prepared disk)) as (_ & _ & _ & Hout).
  rewrite Hone in Hout. cbn [snd] in Hout.
  split; [done |]. split; [done |]. split.
  { intros ->.
    destruct (convert_one_raise_cause _ _ _ _ _ (configured_prepared disk) Hf Hone)
      as [[_ Hnone] | [[? _] | (_ & _ & [[? _] | [[? _] | [[? _] | [_ Hnone]]]])]];
      try done.
    - assert (f ∈ found disk) as Hin
        by (apply elem_of_files_prepared; rewrite Hfiles; by left).
      apply elem_of_found in Hin as [[x Hx] _].
      rewrite lookup_prepared in Hnone by by eapply cbf_name_ne_edf_format.
      by rewrite Hx in Hnone.
    - rewrite (prepared_existing _ Hex) in Hnone. cbn [fs] in Hnone.
      by rewrite Hd in Hnone. }
  split.
  { by rewrite Htf, opened_paths_app, opened_paths_prepared, Hopen. }
  split.
  { rewrite Hout. cbn [prepared stdout]. unfold count_line.
    change (merge_sort Unicode.str_le (found disk)) with (files (prepared disk)).
    by rewrite Hfiles. }
  rewrite Hfs. by rewrite (prepared_existing _ Hex).
Qed.

(** X6. The pattern selects names, not regular files.  When a directory
    of the current directory has a name that matches, no run ends without
    an exception: if the run gets as far as opening the directory, it
    raises [IsADirectoryError] there and opens nothing after it. *)
Theorem directory_named_cbf_fails_batch wall disk n :
  n ∈ found disk →
  disk !! n = Some Dir →
  ∃ e, (run wall disk).1 = Raise e ∧
       (n ∈ opened_paths (trace (run wall disk).2) →
        e = IsADirectoryError ∧
        last (opened_paths (trace (run wall disk).2)) = Some n).
Proof.
  intros Hn Hdir.
  destruct (run wall disk) as [[[]| e |] s] eqn:Hrun; cbn [fst snd].
  - destruct (run_ok_disk _ _ _ Hrun) as (Hout & _).
    destruct (Hout n) as (bytes & _ & Hfile & _); [| congruence].
    apply elem_of_files_prepared in Hn.
    pose proof (run_files wall disk) as Hfiles.
    rewrite Hrun in Hfiles. cbn [snd] in Hfiles. by rewrite Hfiles.
  - exists e. split; [done |].
    destruct (run_raise_inv _ _ _ _ Hrun) as (pre & f & post & s1 & Hfiles & Hloop & Hone).
    destruct (foreach_ok_session _ _ _ Hloop) as (Hs1 & Ht & _).
    rewrite (raise_opened_paths _ _ _ _ _ _ Hs1 Ht Hone).
    pose proof (files_prepared_names disk) as Hnames.
    pose proof (files_prepared_NoDup disk) as Hnodup.
    rewrite Hfiles in Hnames, Hnodup.
    apply Forall_app in Hnames as [Hnames_pre [[stem Hf] _]%Forall_cons].
    apply NoDup_app in Hnodup as (Hnodup_pre & _ & _).
    destruct (foreach_ok _ _ _ (configured_prepared disk) Hnames_pre
                Hnodup_pre Hloop) as (Hdone & _ & Hframe).
    intros [Hpre | ->%list_elem_of_singleton]%elem_of_app.
    + destruct (Hdone n Hpre) as (bytes & _ & Hfile & _).
      rewrite Forall_forall in Hnames_pre. destruct (Hnames_pre n Hpre) as [sn Hsn].
      rewrite lookup_prepared in Hfile by by eapply cbf_name_ne_edf_format.
      congruence.
    + split; [| by rewrite last_snoc].
      assert (fs s1 !! f = Some Dir) as Hin.
      { rewrite Hframe by (apply no_sep_not_dst; [done | by eapply cbf_name_no_sep]).
        rewrite lookup_prepared by by eapply cbf_name_ne_edf_format. done. }
      destruct (convert_one_raise_cause _ _ _ _ _ Hs1 Hf Hone)
        as [[_ Hnone] | [[-> _] | (bytes & Hbytes & _)]]; [| done |];
        congruence.
  - pose proof (run_raises_nothing_else wall disk) as Hnd.
    by rewrite Hrun in Hnd.
Qed.

(** X7. What a run prints: always the count of the names found, first; then
    the speed, for that count, if and only if no call raised.  A failed
    run prints the count alone. *)
Theorem run_prints_count_then_speed wall disk :
  stdout (run wall disk).2 =
  count_line (length (found disk)) ::
  match (run wall disk).1 with
  | Ret _ => [speed_line (length (found disk))]
  | _ => []
  end.
Proof.
  assert (length (files (prepared disk)) = length (found disk)) as Hlen
    by (cbn [prepared files]; by rewrite merge_sort_Permutation).
  destruct (run_shape wall disk) as (t & _ & (Hfiles & _ & _ & Hout) & Hrun).
  destruct (foreach _ _ _) as [[[]| e |] s']; [| | done]; cbn [snd] in *.
  - destruct Hrun as (_ & _ & ->).
    cbn [fst snd finish add_line add_events stdout files].
    rewrite Hout, Hfiles, Hlen. cbn [prepared stdout app]. unfold count_line.
    change (merge_sort Unicode.str_le (found disk)) with (files (prepared disk)).
    by rewrite Hlen.
  - destruct Hrun as (_ & ->). cbn [fst snd].
    rewrite Hout. cbn [prepared stdout]. unfold count_line.
    change (merge_sort Unicode.str_le (found disk)) with (files (prepared disk)).
    by rewrite Hlen.
Qed.

(** X8. Running the notebook again after a failed run fails again in the
    same way: on the disk the failed run left, the second run finds the
    same files, converts again the ones before the failing file, raises
    the same exception at the same file, and leaves the disk as it found
    it. *)
Theorem rerun_after_failure wall wall' disk e s :
  run wall disk = (Raise e, s) →
  ∃ s', run wall' (fs s) = (Raise e, s') ∧
        fs s' = fs s ∧
        files s' = files s ∧
        opened_paths (trace s') = opened_paths (trace s) ∧
        stdout s' = stdout s.
Proof.
  intros Hrun.
  destruct (run_raise_inv _ _ _ _ Hrun) as (pre & f & post & s1 & Hfiles & Hloop & Hone).
  destruct (foreach_ok_session _ _ _ Hloop) as (Hs1 & Ht & Hfiles1 & _ & _ & Hout1).
  destruct (convert_one_raise _ _ _ _ Hs1 Hone) as (Hfs & _).
  pose proof (convert_one_vars f s1) as (Hfiles_s & _ & _ & Hout_s).
  rewrite Hone in Hfiles_s, Hout_s. cbn [snd] in Hfiles_s, Hout_s.
  pose proof (files_prepared_names disk) as Hnames.
  pose proof (files_prepared_NoDup disk) as Hnodup.
  rewrite Hfiles in Hnames, Hnodup.
  apply Forall_app in Hnames as [Hnames_pre _].
  apply NoDup_app in Hnodup as (Hnodup_pre & _ & _).
  destruct (foreach_ok _ _ _ (configured_prepared disk) Hnames_pre
              Hnodup_pre Hloop) as (Hdone & Hdir & Hframe).
  pose proof (found_after_any_run wall disk) as Hfound.
  pose proof (run_edf_format wall disk) as Hedf.
  rewrite Hrun in Hfound, Hedf. cbn [snd] in Hfound, Hedf.
  assert (Fs.exists_ (fs s) "edf_format" = true) as Hex.
  { unfold Fs.exists_. apply bool_decide_eq_true. rewrite Hedf.
    by destruct (disk !! "edf_format"). }
  assert (files (prepared (fs s)) = pre ++ f :: post) as Hfiles2.
  { rewrite <- Hfiles. cbn [prepared files]. by apply sorted_perm_eq. }
  assert (foreach pre convert_one (prepared (fs s)) =
          (Ret (), add_events (loop_calls pre) (prepared (fs s)))) as Hloop2.
  { apply foreach_again; [done | done | |].
    - intros g Hg. destruct (Hdone g Hg) as (bytes & out & Hin & Hconv & Hdst).
      exists bytes, out. rewrite (prepared_existing _ Hex). cbn [fs].
      rewrite Hfs. split; [| done].
      rewrite Hframe; [done |].
      rewrite Forall_forall in Hnames_pre. destruct (Hnames_pre g Hg) as [sg Hsg].
      apply no_sep_not_dst; [by apply Forall_forall | by eapply cbf_name_no_sep].
    - intros Hne. rewrite (prepared_existing _ Hex). cbn [fs].
      rewrite Hfs. by apply Hdir. }
  destruct (convert_one_fs_ext f
              (add_events (loop_calls pre) (prepared (fs s))) s1)
    as [Hsame Hsame_fs].
  { destruct Hs1 as [-> _]. done. }
  { destruct Hs1 as [_ ->]. done. }
  { cbn [fs add_events]. by rewrite (prepared_existing _ Hex). }
  rewrite Hone in Hsame, Hsame_fs. cbn [fst snd] in Hsame, Hsame_fs.
  destruct (convert_one f (add_events (loop_calls pre) (prepared (fs s))))
    as [o s'] eqn:Hone2.
  cbn [fst snd] in Hsame, Hsame_fs. subst o.
  exists s'. split.
  { by rewrite run_eq, batch_eq, Hfiles2, foreach_app, Hloop2, foreach_cons, Hone2. }
  split; [done |].
  pose proof (convert_one_vars f (add_events (loop_calls pre) (prepared (fs s))))
    as (Hfiles_s' & _ & _ & Hout_s').
  rewrite Hone2 in Hfiles_s', Hout_s'. cbn [snd] in Hfiles_s', Hout_s'.
  split.
  { rewrite Hfiles_s', Hfiles_s, Hfiles1. cbn [files add_events].
    by rewrite Hfiles2, Hfiles. }
  split.
  { rewrite (raise_opened_paths _ _ _ _ _ _ Hs1 Ht Hone).
    by apply (raise_opened_paths (fs s) pre f
                (add_events (loop_calls pre) (prepared (fs s))) e s'). }
  rewrite Hout_s', Hout_s, Hout1. cbn [stdout add_events prepared].
  by rewrite (sorted_perm_eq _ _ Hfound).
Qed.

(** X9. A run ends without an exception only if the disk it starts from
    has, for every name found, a regular file that the image library
    converts and no directory where its output goes, and, if any name was
    found, no regular file at [edf_format]: each of these defects makes
    the run raise. *)
Theorem run_succeeds_only_if wall disk :
  (run wall disk).1 = Ret () →
  (∀ f, f ∈ found disk → ∃ bytes out,
     disk !! f = Some (File bytes) ∧
     converted "edf" f (dst f) bytes = Some out ∧
     disk !! dst f ≠ Some Dir) ∧
  (found disk ≠ [] → ∀ d, disk !! "edf_format" ≠ Some (File d)).
Proof.
  destruct (run wall disk) as [o s] eqn:Hrun. cbn [fst]. intros ->.
  destruct (run_ok_disk _ _ _ Hrun) as (Hout & _).
  pose proof (run_files wall disk) as Hfiles.
  rewrite Hrun in Hfiles. cbn [snd] in Hfiles.
  assert (∀ f, f ∈ found disk → f ∈ files s) as Hin
    by (intros f Hf; rewrite Hfiles; by apply elem_of_files_prepared).
  split.
  - intros f Hf.
    destruct (Hout f (Hin f Hf)) as (bytes & out & Hb & Hc & Hdst & _).
    exists bytes, out. do 2 (split; [done |]). intros Hd.
    pose proof (run_keeps_dir wall disk _ Hd) as Hkeep.
    rewrite Hrun in Hkeep. cbn [snd] in Hkeep. congruence.
  - intros Hne d Hd. destruct (found disk) as [|f l] eqn:Hfound; [done |].
    destruct (Hout f) as (_ & _ & _ & _ & _ & Hdir); [apply Hin; by left |].
    pose proof (run_edf_format wall disk) as Hedf.
    rewrite Hrun, Hd in Hedf. cbn [snd] in Hedf. congruence.
Qed.

End Extras.

Lemma regular_file_at_destination_blocks_batch_witness :
  (disk_taken !! "edf_format" = Some (File []) ∧ found disk_taken ≠ []) ∧
  ∃ e f,
    head (files (@run toy_codec recorded_wall disk_taken).2) = Some f ∧
    (@run toy_codec recorded_wall disk_taken).1 = Raise e ∧
    e ≠ FileNotFoundError ∧
    opened_paths (trace (@run toy_codec recorded_wall disk_taken).2) = [f] ∧
    stdout (@run toy_codec recorded_wall disk_taken).2 =
      [count_line (length (files (@run toy_codec recorded_wall disk_taken).2))] ∧
    fs (@run toy_codec recorded_wall disk_taken).2 = disk_taken.
Proof.
  assert (disk_taken !! "edf_format" = Some (File [])) as Hd by reflexivity.
  assert (found disk_taken ≠ []) as Hfound by (vm_compute; discriminate).
  split; [by split |].
  exact (@regular_file_at_destination_blocks_batch toy_codec recorded_wall
           disk_taken [] Hd Hfound).
Defined.

Lemma directory_named_cbf_fails_batch_witness :
  ("b.cbf" ∈ found disk_dir_cbf ∧ disk_dir_cbf !! "b.cbf" = Some Dir) ∧
  ∃ e, (@run toy_codec recorded_wall disk_dir_cbf).1 = Raise e ∧
       ("b.cbf" ∈ opened_paths (trace (@run toy_codec recorded_wall disk_dir_cbf).2) →
        e = IsADirectoryError ∧
        last (opened_paths (trace (@run toy_codec recorded_wall disk_dir_cbf).2)) =
          Some "b.cbf").
Proof.
  assert ("b.cbf" ∈ found disk_dir_cbf) as Hin
    by (vm_compute; repeat constructor).
  assert (disk_dir_cbf !! "b.cbf" = Some Dir) as Hd by reflexivity.
  split; [by split |].
  exact (@directory_named_cbf_fails_batch toy_codec recorded_wall
           disk_dir_cbf "b.cbf" Hin Hd).
Defined.

Example directory_named_cbf_run :
  let s := (@run toy_codec recorded_wall disk_dir_cbf).2 in
  (@run toy_codec recorded_wall disk_dir_cbf).1 = Raise IsADirectoryError ∧
  opened_paths (trace s) = ["a.cbf"; "b.cbf"] ∧
  saved_paths (trace s) = ["edf_format/a.edf"] ∧
  stdout s = ["Number of files: 3"].
Proof. by vm_compute. Qed.

Lemma rerun_after_failure_witness :
  @run toy_codec recorded_wall disk_corrupt_b =
    (Raise FabioError, (@run toy_codec recorded_wall disk_corrupt_b).2) ∧
  ∃ s', @run toy_codec recorded_wall
          (fs (@run toy_codec recorded_wall disk_corrupt_b).2) =
          (Raise FabioError, s') ∧
        fs s' = fs (@run toy_codec recorded_wall disk_corrupt_b).2 ∧
        files s' = files (@run toy_codec recorded_wall disk_corrupt_b).2 ∧
        opened_paths (trace s') =
          opened_paths (trace (@run toy_codec recorded_wall disk_corrupt_b).2) ∧
        stdout s' = stdout (@run toy_codec recorded_wall disk_corrupt_b).2.
Proof.
  assert (@run toy_codec recorded_wall disk_corrupt_b =
            (Raise FabioError, (@run toy_codec recorded_wall disk_corrupt_b).2))
    as Hrun by (vm_compute; reflexivity).
  split; [exact Hrun |].
  exact (@rerun_after_failure toy_codec recorded_wall recorded_wall
           disk_corrupt_b _ _ Hrun).
Defined.

Lemma run_succeeds_only_if_witness :
  (@run toy_codec recorded_wall disk_abc).1 = Ret () ∧
  ((∀ f, f ∈ found disk_abc → ∃ bytes out,
      disk_abc !! f = Some (File bytes) ∧
      @converted toy_codec "edf" f (dst f) bytes = Some out ∧
      disk_abc !! dst f ≠ Some Dir) ∧
   (found disk_abc ≠ [] → ∀ d, disk_abc !! "edf_format" ≠ Some (File d))).
Proof.
  assert ((@run toy_codec recorded_wall disk_abc).1 = Ret ()) as Hrun
    by (vm_compute; reflexivity).
  split; [exact Hrun |].
  exact (@run_succeeds_only_if toy_codec recorded_wall disk_abc Hrun).
Defined.
